(** * critter_finder: the observation pipeline of [critter_finder.py]

    A shallow embedding of the data work of [critter_finder.py]:
    - [get_inaturalist_observations] (the Observation Collector),
    - [get_weather_for_observation] (the Weather Enricher),
    - the aggregation part of [plot_weather_data] (the Aggregator),
    - the corners of the map in [plot_observations_on_map],
    - the control flow of [main].

    Python values are an inductive type [pyval]; Python exceptions are the
    [Raise] branch of [result]; [print] appends to an output log; the two
    HTTP services, the clock, the Unicode tables and [float] on texts
    are parameters.
    Numbers are exact rationals: a JSON integer and a JSON float are both
    [PNum], and float rounding is not modelled. *)

From Stdlib Require Import String Ascii Bool Arith ZArith NArith QArith Qround List Lia Lqa.
Import ListNotations.

Close Scope Q_scope.

Set Warnings "-register-all".

(* ================================================================== *)
(** ** Python values, exceptions and the operations the program uses *)
(* ================================================================== *)

Module Py.

(** A Python [str]: its sequence of Unicode code points. *)
Definition pystr := list N.

(** A [str] literal of the source (all of them are ASCII). *)
Definition str (s : string) : pystr := map N_of_ascii (list_ascii_of_string s).

Definition pystr_eqb (a b : pystr) : bool :=
  if list_eq_dec N.eq_dec a b then true else false.

(** The values that [json()] decodes to, and that the program builds:
    [None], booleans, numbers, strings, lists and string-keyed dicts
    (in insertion order). *)
Inductive pyval :=
| PNone
| PBool (b : bool)
| PNum (q : Q)
| PStr (s : pystr)
| PList (l : list pyval)
| PDict (d : list (pystr * pyval)).

(** The exception classes that can arise in the modelled functions
    ([SystemExit] is what [exit()] raises).
    [RequestException] stands for [requests.RequestException] and all its
    subclasses (connection errors, timeouts, [HTTPError] from
    [raise_for_status]); it carries the text of the exception. *)
Inductive exn :=
| KeyError
| IndexError
| TypeError
| ValueError
| AttributeError
| ZeroDivisionError
| SystemExit
| RequestException (msg : pystr).

Inductive result (A : Type) :=
| Ok (a : A)
| Raise (e : exn).

Arguments Ok {A} a.
Arguments Raise {A} e.

Definition bind {A B} (c : result A) (k : A -> result B) : result B :=
  match c with
  | Ok a => k a
  | Raise e => Raise e
  end.

Declare Scope py_scope.
Delimit Scope py_scope with py.
Notation "x <- c ;; k" := (bind c (fun x => k))
  (at level 61, c at next level, right associativity) : py_scope.
Open Scope py_scope.

(** A computation that raises no [RequestException]. *)
Definition plain {A} (c : result A) : Prop :=
  forall msg, c <> Raise (RequestException msg).

(** [bool(v)]: Python truthiness. *)
Definition truthy (v : pyval) : bool :=
  match v with
  | PNone => false
  | PBool b => b
  | PNum q => negb (Qeq_bool q 0)
  | PStr s => match s with [] => false | _ => true end
  | PList l => match l with [] => false | _ => true end
  | PDict d => match d with [] => false | _ => true end
  end.

(** Lookup in a string-keyed dict. *)
Fixpoint lookup (k : pystr) (d : list (pystr * pyval)) : option pyval :=
  match d with
  | [] => None
  | (k', v) :: rest => if pystr_eqb k k' then Some v else lookup k rest
  end.

(** [d[k] = v] on a string-keyed dict: an existing key keeps its place. *)
Fixpoint dict_set (k : pystr) (v : pyval) (d : list (pystr * pyval))
  : list (pystr * pyval) :=
  match d with
  | [] => [(k, v)]
  | (k', v') :: rest =>
      if pystr_eqb k k' then (k', v) :: rest else (k', v') :: dict_set k v rest
  end.

(** [o[k]] for a [str] key [k]: [KeyError] when a dict lacks the key,
    [TypeError] on every other value (lists and strings want integer
    indices; [None], booleans and numbers are not subscriptable). *)
Definition getitem (o : pyval) (k : pystr) : result pyval :=
  match o with
  | PDict d => match lookup k d with
               | Some v => Ok v
               | None => Raise KeyError
               end
  | _ => Raise TypeError
  end.

(** [o[0]]: the first element of a list or string, [IndexError] when it is
    empty; a string-keyed dict has no key [0]. *)
Definition getitem0 (o : pyval) : result pyval :=
  match o with
  | PList l => match l with
               | x :: _ => Ok x
               | [] => Raise IndexError
               end
  | PStr s => match s with
              | c :: _ => Ok (PStr [c])
              | [] => Raise IndexError
              end
  | PDict _ => Raise KeyError
  | _ => Raise TypeError
  end.

(** [o.get(k, default)]: only dicts have the method. *)
Definition dict_get (o : pyval) (k : pystr) (default : pyval) : result pyval :=
  match o with
  | PDict d => match lookup k d with
               | Some v => Ok v
               | None => Ok default
               end
  | _ => Raise AttributeError
  end.

(** [for x in o]: the elements that the loop visits. *)
Definition iterate (o : pyval) : result (list pyval) :=
  match o with
  | PList l => Ok l
  | PDict d => Ok (map (fun kv => PStr (fst kv)) d)
  | PStr s => Ok (map (fun c => PStr [c]) s)
  | _ => Raise TypeError
  end.

(** The number a value counts as in arithmetic ([bool] is a subclass of
    [int]); [None] for a value that [0 + v] rejects with [TypeError]. *)
Definition as_number (v : pyval) : option Q :=
  match v with
  | PNum q => Some q
  | PBool b => Some (if b then 1 else 0)%Q
  | _ => None
  end.

(** [a == b] for values used as dict keys. *)
Definition key_eqb (a b : pyval) : bool :=
  match as_number a, as_number b with
  | Some x, Some y => Qeq_bool x y
  | None, None =>
      match a, b with
      | PNone, PNone => true
      | PStr s, PStr t => pystr_eqb s t
      | _, _ => false
      end
  | _, _ => false
  end.

(** Lists and dicts are unhashable. *)
Definition hashable (v : pyval) : bool :=
  match v with
  | PList _ | PDict _ => false
  | _ => true
  end.

(** A dict with arbitrary hashable keys, in insertion order. *)
Definition pydict (V : Type) := list (pyval * V).

Fixpoint find_key {V} (k : pyval) (d : pydict V) : option V :=
  match d with
  | [] => None
  | (k', v) :: rest => if key_eqb k k' then Some v else find_key k rest
  end.

Fixpoint store {V} (k : pyval) (v : V) (d : pydict V) : pydict V :=
  match d with
  | [] => [(k, v)]
  | (k', v') :: rest =>
      if key_eqb k k' then (k', v) :: rest else (k', v') :: store k v rest
  end.

(** [d[k] = v]: [TypeError] for an unhashable key. *)
Definition setitem {V} (d : pydict V) (k : pyval) (v : V) : result (pydict V) :=
  if hashable k then Ok (store k v d) else Raise TypeError.

End Py.

Import Py.

(* ================================================================== *)
(** ** Regular expressions: the fragment of [re] that the Collector uses *)
(* ================================================================== *)

(** CPython's Unicode database decides [\d], [\s] and [\w] outside ASCII.
    It is not part of the repository, so the three tables are parameters:
    [uni_decimal] (category Nd), [uni_space] ([str.isspace]) and
    [uni_alnum] ([str.isalnum]) for code points from 128 on. *)
Class unicode_db := {
  uni_decimal : N -> bool;
  uni_space : N -> bool;
  uni_alnum : N -> bool
}.

(** The tables of a text that is ASCII only. *)
Definition ascii_only : unicode_db :=
  {| uni_decimal := fun _ => false;
     uni_space := fun _ => false;
     uni_alnum := fun _ => false |}.

Module Re.

Section Classes.
Context {U : unicode_db}.

Definition between (lo hi c : N) : bool := (lo <=? c)%N && (c <=? hi)%N.

(** [\d]: a decimal digit. *)
Definition is_digit (c : N) : bool :=
  if (c <? 128)%N then between 48 57 c else uni_decimal c.

(** [\s]: whitespace; in ASCII, tab to carriage return, the four
    separators 28..31 and the space. *)
Definition is_space (c : N) : bool :=
  if (c <? 128)%N then between 9 13 c || between 28 32 c else uni_space c.

(** [\w]: alphanumeric or underscore; every decimal digit is alphanumeric. *)
Definition is_word (c : N) : bool :=
  is_digit c ||
  (if (c <? 128)%N
   then between 65 90 c || between 97 122 c || (c =? 95)%N
   else uni_alnum c).

(** [[-\s]]: a hyphen or a whitespace character. *)
Definition is_sep (c : N) : bool := (c =? 45)%N || is_space c.

(** The pattern constructs in use: [\b], a character class, sequencing,
    a greedy [?], and a counted repetition [{n}]. *)
Inductive regex :=
| Boundary
| Class_ (p : N -> bool)
| Seq (a b : regex)
| Opt (a : regex)
| Rep (n : nat) (a : regex).

Definition word_at (s : pystr) (i : nat) : bool :=
  match nth_error s i with
  | Some c => is_word c
  | None => false
  end.

(** [\b] at position [i]: exactly one of the characters before and after
    the position is a word character (outside the string counts as not). *)
Definition at_boundary (s : pystr) (i : nat) : bool :=
  xorb (match i with O => false | S j => word_at s j end) (word_at s i).

(** The backtracking matcher: [rmatch r s i k] matches [r] at position [i]
    of [s] and hands the end position to the continuation [k]; alternatives
    are tried in the engine's order (a greedy [?] takes its body first). *)
Fixpoint rmatch (r : regex) (s : pystr) (i : nat) (k : nat -> option nat)
  : option nat :=
  match r with
  | Boundary => if at_boundary s i then k i else None
  | Class_ p =>
      match nth_error s i with
      | Some c => if p c then k (S i) else None
      | None => None
      end
  | Seq a b => rmatch a s i (fun j => rmatch b s j k)
  | Opt a =>
      match rmatch a s i k with
      | Some e => Some e
      | None => k i
      end
  | Rep n a =>
      (fix rep (n : nat) (i : nat) (k : nat -> option nat) : option nat :=
         match n with
         | O => k i
         | S m => rmatch a s i (fun j => rep m j k)
         end) n i k
  end.

(** [re.search]: the match at the leftmost start position that has one,
    as (start, end). Start positions run from 0 to [len(s)]. *)
Fixpoint search_from (r : regex) (s : pystr) (i : nat) (more : nat)
  : option (nat * nat) :=
  match rmatch r s i Some with
  | Some e => Some (i, e)
  | None =>
      match more with
      | O => None
      | S m => search_from r s (S i) m
      end
  end.

Definition search (r : regex) (s : pystr) : option (nat * nat) :=
  search_from r s 0 (length s).

(** [m.group()]: the matched text. *)
Definition group (s : pystr) (m : nat * nat) : pystr :=
  firstn (snd m - fst m) (skipn (fst m) s).

(** [r"\b\d{5}(?:[-\s]?\d{4})?\b"] *)
Definition zip_pattern : regex :=
  Seq Boundary
   (Seq (Rep 5 (Class_ is_digit))
    (Seq (Opt (Seq (Opt (Class_ is_sep)) (Rep 4 (Class_ is_digit))))
         Boundary)).

(** [re.search(pattern, x)] on a Python value: [TypeError] unless [x] is a
    string. *)
Definition re_search (r : regex) (x : pyval) : result (option pystr) :=
  match x with
  | PStr s => Ok (option_map (group s) (search r s))
  | _ => Raise TypeError
  end.

End Classes.

End Re.

(* ================================================================== *)
(** ** The Observation Collector: [get_inaturalist_observations] *)
(* ================================================================== *)

Module Collector.

(** A [datetime]: its wall-clock reading in microseconds on a fixed
    calendar scale, and the UTC offset when it is timezone-aware. Naive
    datetimes compare by their wall-clock reading. *)
Record datetime := { wall : Z; tzinfo : option Z }.

(** [d.replace(tzinfo=None)] *)
Definition replace_tzinfo_none (d : datetime) : datetime :=
  {| wall := wall d; tzinfo := None |}.

(** [relativedelta(days=2)], in microseconds. *)
Definition two_days : Z := 2 * 86400 * 1000000.

Section Collector.
Context {U : unicode_db}.

(** [datetime.fromisoformat] on a string; [None] stands for its
    [ValueError]. The parser belongs to the Python library. *)
Variable fromisoformat : pystr -> option datetime.

(** [datetime.today()] as read while the loop handles its [i]-th record. *)
Variable today : nat -> Z.

(** What [requests.get(url, params)], [raise_for_status()] and [json()]
    come to for a taxon and a page size: the decoded body, or the
    exception one of the three raised. *)
Variable inat_get : Z -> Z -> result pyval.

Definition datetime_fromisoformat (v : pyval) : result datetime :=
  match v with
  | PStr s => match fromisoformat s with
              | Some d => Ok d
              | None => Raise ValueError
              end
  | _ => Raise TypeError
  end.

(** The condition of the [if] on lines 54-56: the timestamp is truthy and,
    parsed and stripped of its timezone, lies before [today - 2 days]. *)
Definition old_enough (now : Z) (observation_datetime : pyval) : result bool :=
  if truthy observation_datetime then
    d <- datetime_fromisoformat observation_datetime ;;
    Ok (wall (replace_tzinfo_none d) <? now - two_days)%Z
  else Ok false.

(** The dict literal of lines 60-68; its values are evaluated in order. *)
Definition observation_data (observation : pyval) (zip_code : pystr)
  : result pyval :=
  dt <- getitem observation (str "time_observed_at") ;;
  species <- getitem observation (str "species_guess") ;;
  coordinates <- getitem observation (str "location") ;;
  photos <- getitem observation (str "observation_photos") ;;
  first <- getitem0 photos ;;
  photo <- getitem first (str "photo") ;;
  url <- getitem photo (str "url") ;;
  Ok (PDict [ (str "datetime", dt);
              (str "species", species);
              (str "zip_code", PStr zip_code);
              (str "coordinates", coordinates);
              (str "photo_url", url) ]).

(** The body of the [for] loop: one record, against the mapping built so
    far. The mapping changes only in the last step. *)
Definition collect_one (now : Z) (observations : pydict pyval)
  (observation : pyval) : result (pydict pyval) :=
  observation_id <- getitem observation (str "id") ;;
  observation_datetime <- getitem observation (str "time_observed_at") ;;
  pass <- old_enough now observation_datetime ;;
  if (pass : bool) then
    place_guess <- dict_get observation (str "place_guess") (PStr []) ;;
    zip_code_match <- Re.re_search Re.zip_pattern place_guess ;;
    match zip_code_match with
    | Some zip_code =>
        data <- observation_data observation zip_code ;;
        setitem observations observation_id data
    | None => Ok observations
    end
  else Ok observations.

(** The [for] loop: the mapping when the loop stopped, and the exception
    that stopped it, if any. *)
Fixpoint collect_loop (i : nat) (observations : pydict pyval)
  (records : list pyval) : pydict pyval * option exn :=
  match records with
  | [] => (observations, None)
  | observation :: rest =>
      match collect_one (today i) observations observation with
      | Ok observations' => collect_loop (S i) observations' rest
      | Raise e => (observations, Some e)
      end
  end.

(** The [try] block of lines 45-69. *)
Definition collect_try (taxon_id per_page : Z) : pydict pyval * option exn :=
  match inat_get taxon_id per_page with
  | Raise e => ([], Some e)
  | Ok body =>
      match getitem body (str "results") with
      | Raise e => ([], Some e)
      | Ok observation_response =>
          match iterate observation_response with
          | Raise e => ([], Some e)
          | Ok records => collect_loop 0 [] records
          end
      end
  end.

(** [get_inaturalist_observations]: the lines printed, and the mapping it
    returns or the exception that leaves it. Only a [RequestException] is
    caught. *)
Definition get_inaturalist_observations (taxon_id per_page : Z)
  : list pystr * result (pydict pyval) :=
  match collect_try taxon_id per_page with
  | (observations, None) => ([], Ok observations)
  | (observations, Some (RequestException msg)) =>
      ([str "Error fetching iNaturalist data: " ++ msg], Ok observations)
  | (_, Some e) => ([], Raise e)
  end.

End Collector.

End Collector.

(* ================================================================== *)
(** ** The Weather Enricher: [get_weather_for_observation] *)
(* ================================================================== *)

Module Enricher.

Section Enricher.

(** What the request to the climate service comes to for a location and a
    date: the decoded body, or the exception that [requests.get],
    [raise_for_status()] or [json()] raised. *)
Variable noaa_get : pyval -> pyval -> result pyval.

(** [x == "..."] against a string literal. *)
Definition eq_str (x : pyval) (lit : pystr) : bool :=
  match x with
  | PStr s => pystr_eqb s lit
  | _ => false
  end.

(** The body of the loop of lines 250-254, on the [weather] dict. *)
Definition weather_step (weather : list (pystr * pyval)) (record : pyval)
  : result (list (pystr * pyval)) :=
  datatype <- getitem record (str "datatype") ;;
  if eq_str datatype (str "TAVG") then
    value <- getitem record (str "value") ;;
    Ok (dict_set (str "avg_temp") value weather)
  else
    datatype' <- getitem record (str "datatype") ;;
    if eq_str datatype' (str "PRCP") then
      value <- getitem record (str "value") ;;
      Ok (dict_set (str "rain") value weather)
    else Ok weather.

Fixpoint weather_loop (weather : list (pystr * pyval)) (records : list pyval)
  : result (list (pystr * pyval)) :=
  match records with
  | [] => Ok weather
  | record :: rest =>
      weather' <- weather_step weather record ;;
      weather_loop weather' rest
  end.

(** The [try] block of lines 244-255. *)
Definition weather_try (zip_code date : pyval) : result pyval :=
  data <- noaa_get zip_code date ;;
  results <- getitem data (str "results") ;;
  records <- iterate results ;;
  weather <- weather_loop [(str "avg_temp", PNone); (str "rain", PNone)] records ;;
  Ok (PDict weather).

(** [get_weather_for_observation]: the lines printed, and the value
    returned or the exception that leaves the function. *)
Definition get_weather_for_observation (zip_code date : pyval)
  : list pystr * result pyval :=
  match weather_try zip_code date with
  | Ok weather => ([], Ok weather)
  | Raise (RequestException msg) =>
      ([str "Error fetching NOAA data: " ++ msg], Ok PNone)
  | Raise e => ([], Raise e)
  end.

End Enricher.

End Enricher.

(* ================================================================== *)
(** ** The Aggregator: lines 181-207 of [plot_weather_data] *)
(* ================================================================== *)

Module Aggregator.

(** One entry of [aggregated_data]. *)
Record aggregate := { species : pyval; avg_temp : Z; rain : Q }.

(** The two sample lists of a species: [data["avg_temp"]], [data["rain"]]. *)
Definition samples := (list pyval * list pyval)%type.

(** Line 181: [{k: v for k, v in observations.items() if v["species"]}]. *)
Fixpoint with_species (observations : pydict pyval) : result (pydict pyval) :=
  match observations with
  | [] => Ok []
  | (k, v) :: rest =>
      label <- getitem v (str "species") ;;
      rest' <- with_species rest ;;
      Ok (if truthy label then (k, v) :: rest' else rest')
  end.

(** The body of the loop of lines 184-192. *)
Definition add_sample (species_weather : pydict samples) (obs : pyval)
  : result (pydict samples) :=
  label <- getitem obs (str "species") ;;
  weather <- dict_get obs (str "weather") PNone ;;
  if truthy weather then
    t <- dict_get weather (str "avg_temp") (PNum 0) ;;
    r <- dict_get weather (str "rain") (PNum 0) ;;
    if hashable label then
      let data := match find_key label species_weather with
                  | Some data => data
                  | None => ([], [])
                  end in
      Ok (store label (fst data ++ [t], snd data ++ [r]) species_weather)
    else Raise TypeError
  else Ok species_weather.

Fixpoint group_samples (species_weather : pydict samples)
  (observations : list pyval) : result (pydict samples) :=
  match observations with
  | [] => Ok species_weather
  | obs :: rest =>
      species_weather' <- add_sample species_weather obs ;;
      group_samples species_weather' rest
  end.

(** The filter of lines 194-198: [species and data["avg_temp"] and
    data["rain"]]. *)
Definition complete (entry : pyval * samples) : bool :=
  truthy (fst entry) &&
  match fst (snd entry) with [] => false | _ => true end &&
  match snd (snd entry) with [] => false | _ => true end.

(** [sum(xs)]: a left fold of [+] from [0]; adding a value that is not a
    number raises [TypeError]. Numbers are kept in lowest terms. *)
Fixpoint sum_from (acc : Q) (xs : list pyval) : result Q :=
  match xs with
  | [] => Ok acc
  | x :: rest =>
      match as_number x with
      | Some q => sum_from (Qred (acc + q)) rest
      | None => Raise TypeError
      end
  end.

Definition sum (xs : list pyval) : result Q := sum_from 0 xs.

(** [a / len(xs)] *)
Definition div_len (a : Q) (xs : list pyval) : result Q :=
  match xs with
  | [] => Raise ZeroDivisionError
  | _ => Ok (a / inject_Z (Z.of_nat (List.length xs)))%Q
  end.

(** [int(x)] of a number: truncation toward zero. *)
Definition py_int (x : Q) : Z := Z.quot (Qnum x) (Zpos (Qden x)).

(** The dict of lines 201-205 for one species. *)
Definition aggregate_one (entry : pyval * samples) : result aggregate :=
  total <- sum (fst (snd entry)) ;;
  mean <- div_len total (fst (snd entry)) ;;
  rain_total <- sum (snd (snd entry)) ;;
  Ok {| species := fst entry; avg_temp := py_int mean; rain := rain_total |}.

Fixpoint aggregate_all (entries : pydict samples) : result (list aggregate) :=
  match entries with
  | [] => Ok []
  | entry :: rest =>
      a <- aggregate_one entry ;;
      rest' <- aggregate_all rest ;;
      Ok (a :: rest')
  end.

(** [aggregated_data] as [plot_weather_data] computes it from the
    enriched observations (what follows it there is plotting). *)
Definition aggregated_data (observations : pydict pyval)
  : result (list aggregate) :=
  observations' <- with_species observations ;;
  species_weather <- group_samples [] (map snd observations') ;;
  aggregate_all (filter complete species_weather).

End Aggregator.

(* ================================================================== *)
(** ** The driver: [main] *)
(* ================================================================== *)

Module Main.

(** What a run does that can be observed from outside, in order. *)
Inductive event :=
| Print (line : pystr)
| NoaaRequest (zip_code date : pyval)
| PlotMap (observations : pydict pyval)
| PlotWeather (data : list Aggregator.aggregate).

(** A computation that leaves a trace and returns or raises. *)
Definition io (A : Type) := (list event * result A)%type.

Definition io_bind {A B} (c : io A) (k : A -> io B) : io B :=
  match c with
  | (t, Ok a) => let (t', r) := k a in (t ++ t', r)
  | (t, Raise e) => (t, Raise e)
  end.

Definition emit (e : event) : io unit := ([e], Ok tt).
Definition lift {A} (r : result A) : io A := ([], r).
Definition printed {A} (c : list pystr * result A) : io A :=
  (map Print (fst c), snd c).

Notation "x <~ c ;; k" := (io_bind c (fun x => k))
  (at level 61, c at next level, right associativity).

(** The text of [s] before the first occurrence of the character [sep]:
    [s.split(sep)[0]]. *)
Fixpoint before (sep : N) (s : pystr) : pystr :=
  match s with
  | [] => []
  | c :: rest => if (c =? sep)%N then [] else c :: before sep rest
  end.

(** [x.split("T")[0]]: only strings have the method. *)
Definition split_T_first (x : pyval) : result pyval :=
  match x with
  | PStr s => Ok (PStr (before 84 s))
  | _ => Raise AttributeError
  end.

(** [observation["weather"] = w] on an observation dict. *)
Definition set_weather (observation w : pyval) : result pyval :=
  match observation with
  | PDict d => Ok (PDict (dict_set (str "weather") w d))
  | _ => Raise TypeError
  end.

Section Main.
Context {U : unicode_db}.
Variable fromisoformat : pystr -> option Collector.datetime.
Variable today : nat -> Z.
Variable inat_get : Z -> Z -> result pyval.
Variable noaa_get : pyval -> pyval -> result pyval.

(** [plot_observations_on_map]: image download and map drawing, which
    belong to the plotting libraries; it returns or raises. *)
Variable plot_observations_on_map : pydict pyval -> result unit.

(** The loop of lines 278-281: every observation of the mapping gets its
    [weather] entry, in the mapping's order. *)
Fixpoint enrich (observations : pydict pyval) : io (pydict pyval) :=
  match observations with
  | [] => lift (Ok [])
  | (k, observation) :: rest =>
      zip_code <~ lift (getitem observation (str "zip_code")) ;;
      dt <~ lift (getitem observation (str "datetime")) ;;
      date <~ lift (split_T_first dt) ;;
      _ <~ emit (NoaaRequest zip_code date) ;;
      w <~ printed (Enricher.get_weather_for_observation noaa_get zip_code date) ;;
      observation' <~ lift (set_weather observation w) ;;
      rest' <~ enrich rest ;;
      lift (Ok ((k, observation') :: rest'))
  end.

(** Lines 273-288 of [main], after the two prompts. *)
Definition run (taxon_id num_of_results : Z) : io unit :=
  observations <~ printed (Collector.get_inaturalist_observations
                             fromisoformat today inat_get
                             taxon_id num_of_results) ;;
  match observations with
  | [] => emit (Print (str "No observations found."))
  | _ =>
      observations' <~ enrich observations ;;
      _ <~ emit (PlotMap observations') ;;
      _ <~ lift (plot_observations_on_map observations') ;;
      data <~ lift (Aggregator.aggregated_data observations') ;;
      emit (PlotWeather data)
  end.

(** [main]: [taxon_answer] and [count_answer] are what [int(input(...))]
    gives at the two prompts, [None] when it raises [ValueError]. The
    spinner thread only writes to the console and is left out. *)
Definition main (taxon_answer count_answer : option Z) : io unit :=
  match taxon_answer, count_answer with
  | Some taxon_id, Some num_of_results => run taxon_id num_of_results
  | _, _ =>
      _ <~ emit (Print (str "Invalid input. Please enter numeric values.")) ;;
      lift (Raise SystemExit)
  end.

End Main.

End Main.

(* ================================================================== *)
(** ** The notions of the specification *)
(* ================================================================== *)

(** A postal code inside a place description: the text, where it starts,
    and the word boundaries around it. *)
Module ZipSpec.

Section ZipSpec.
Context {U : unicode_db}.

(** [n] decimal digits. *)
Definition digits (n : nat) (a : pystr) : Prop :=
  List.length a = n /\ forallb Re.is_digit a = true.

(** A five-digit code, or a ZIP+4 code: five digits and four digits, with
    at most one hyphen or whitespace character between them. *)
Inductive zip_text : pystr -> Prop :=
| zip_five a : digits 5 a -> zip_text a
| zip_nine a b : digits 5 a -> digits 4 b -> zip_text (a ++ b)
| zip_nine_sep a c b :
    digits 5 a -> Re.is_sep c = true -> digits 4 b -> zip_text (a ++ c :: b).

Definition starts_word (r : pystr) : bool :=
  match r with
  | c :: _ => Re.is_word c
  | [] => false
  end.

Definition ends_word (l : pystr) : bool := starts_word (rev l).

(** A word boundary between the texts [l] and [r]. *)
Definition boundary (l r : pystr) : Prop :=
  xorb (ends_word l) (starts_word r) = true.

(** The code [m] occurs in [s] at position [i], as a word of its own. *)
Definition occurs (s : pystr) (i : nat) (m : pystr) : Prop :=
  exists pre post,
    s = pre ++ m ++ post /\ List.length pre = i /\ zip_text m /\
    boundary pre (m ++ post) /\ boundary (pre ++ m) post.

(** The same by positions: [n] characters of class [p] from position [i],
    a separator at position [j], and the end position of the pattern's
    match at [i] in the order in which the engine tries the forms. *)
Definition run_at (p : N -> bool) (n : nat) (s : pystr) (i : nat) : bool :=
  (n <=? List.length (skipn i s)) && forallb p (firstn n (skipn i s)).

Definition sep_at (s : pystr) (j : nat) : bool :=
  match nth_error s j with
  | Some c => Re.is_sep c
  | None => false
  end.

Definition bnd (s : pystr) (j : nat) : option nat :=
  if Re.at_boundary s j then Some j else None.

Definition zip_at (s : pystr) (i : nat) : option nat :=
  if Re.at_boundary s i && run_at Re.is_digit 5 s i then
    if sep_at s (i + 5) && run_at Re.is_digit 4 s (i + 6)
       && Re.at_boundary s (i + 10)
    then Some (i + 10)
    else if run_at Re.is_digit 4 s (i + 5) && Re.at_boundary s (i + 9)
    then Some (i + 9)
    else if Re.at_boundary s (i + 5) then Some (i + 5) else None
  else None.

End ZipSpec.

End ZipSpec.

(** The climate records of a response, by data type. *)
Module WeatherSpec.

(** The record's [datatype] is the string [tag]. *)
Definition datatype_is (tag : pystr) (record : pyval) : bool :=
  match getitem record (str "datatype") with
  | Ok d => Enricher.eq_str d tag
  | Raise _ => false
  end.

Definition value_of (record : pyval) : pyval :=
  match getitem record (str "value") with
  | Ok v => v
  | Raise _ => PNone
  end.

(** The value of the first record of type [tag]; [None] without one. *)
Definition first_value (tag : pystr) (records : list pyval) : pyval :=
  match find (datatype_is tag) records with
  | Some record => value_of record
  | None => PNone
  end.

(** The value of the last record of type [tag]; [None] without one. *)
Definition last_value (tag : pystr) (records : list pyval) : pyval :=
  first_value tag (rev records).

(** What a variable holds after the records were visited in order, when
    each record of type [tag] overwrites it with its value. *)
Definition overwritten (tag : pystr) (init : pyval) (records : list pyval)
  : pyval :=
  fold_left (fun acc record =>
               if datatype_is tag record then value_of record else acc)
            records init.

(** A record that the loop can read: it has a [datatype], and a [value]
    when the type is one of the two that the loop stores. *)
Definition readable (record : pyval) : bool :=
  match getitem record (str "datatype") with
  | Ok d =>
      if Enricher.eq_str d (str "TAVG") || Enricher.eq_str d (str "PRCP")
      then match getitem record (str "value") with
           | Ok _ => true
           | Raise _ => false
           end
      else true
  | Raise _ => false
  end.

(** A record that is neither a temperature nor a precipitation record. *)
Definition unrelated (record : pyval) : bool :=
  match getitem record (str "datatype") with
  | Ok d =>
      negb (Enricher.eq_str d (str "TAVG") || Enricher.eq_str d (str "PRCP"))
  | Raise _ => false
  end.

End WeatherSpec.

(** Mean and sum of a species group. *)
Module AggregateSpec.

(** The arithmetic sum. *)
Definition total (qs : list Q) : Q := fold_right Qplus 0%Q qs.

(** The arithmetic mean. *)
Definition mean (qs : list Q) : Q :=
  (total qs / inject_Z (Z.of_nat (List.length qs)))%Q.








End AggregateSpec.
(* ================================================================== *)
(** ** Concrete data for the examples *)
(* ================================================================== *)

Module Sample.

(** One day, in microseconds. *)
Definition day : Z := 86400 * 1000000.

(** A parser for the timestamps of the examples: the text and its
    wall-clock reading, counted from 2024-05-01T00:00:00. *)
Definition timestamps : list (pystr * Z) :=
  [ (str "2024-05-01T10:00:00-05:00", 10 * 3600 * 1000000);
    (str "2024-05-09T18:30:00-05:00", 8 * day + 18 * 3600 * 1000000 + 1800 * 1000000) ]%Z.

Fixpoint parse_in (table : list (pystr * Z)) (s : pystr)
  : option Collector.datetime :=
  match table with
  | [] => None
  | (text, w) :: rest =>
      if pystr_eqb s text
      then Some {| Collector.wall := w; Collector.tzinfo := Some (-5 * 3600 * 1000000)%Z |}
      else parse_in rest s
  end.

Definition fromisoformat : pystr -> option Collector.datetime :=
  parse_in timestamps.

(** The clock stands at 2024-05-10T12:00:00 during the whole run. *)
Definition today (_ : nat) : Z := (9 * day + 12 * 3600 * 1000000)%Z.

Definition photo (url : string) : pyval :=
  PDict [(str "photo", PDict [(str "url", PStr (str url))])].

(** A record of the biodiversity service. *)
Definition api_record (id : Z) (time : pyval) (species place : string)
  (photos : list pyval) : pyval :=
  PDict [ (str "id", PNum (inject_Z id));
          (str "time_observed_at", time);
          (str "species_guess", PStr (str species));
          (str "place_guess", PStr (str place));
          (str "location", PStr (str "30.27,-97.74"));
          (str "observation_photos", PList photos) ].

Definition old_time : pyval := PStr (str "2024-05-01T10:00:00-05:00").
Definition recent_time : pyval := PStr (str "2024-05-09T18:30:00-05:00").

Definition jay : pyval :=
  api_record 1 old_time "Blue Jay" "Austin, TX 78701, USA"
    [photo "https://example.org/1.jpg"].

Definition robin : pyval :=
  api_record 2 old_time "Robin" "Zilker Park, Austin, TX 78746-1234"
    [photo "https://example.org/2.jpg"].

Definition recent_jay : pyval :=
  api_record 3 recent_time "Blue Jay" "Austin, TX 78701, USA"
    [photo "https://example.org/3.jpg"].

Definition jay_without_photo : pyval :=
  api_record 4 old_time "Blue Jay" "Austin, TX 78701, USA" [].

Definition jay_with_null_time : pyval :=
  api_record 5 PNone "Blue Jay" "Austin, TX 78701, USA"
    [photo "https://example.org/5.jpg"].

(** A record without the [time_observed_at] key. *)
Definition jay_without_time : pyval :=
  PDict [ (str "id", PNum 6);
          (str "species_guess", PStr (str "Blue Jay"));
          (str "place_guess", PStr (str "Austin, TX 78701, USA"));
          (str "location", PStr (str "30.27,-97.74"));
          (str "observation_photos", PList [photo "https://example.org/6.jpg"]) ].

Definition jay_without_zip : pyval :=
  api_record 7 old_time "Blue Jay" "Austin, TX, USA"
    [photo "https://example.org/7.jpg"].

(** A response of the biodiversity service with the given records. *)
Definition response (records : list pyval) : pyval :=
  PDict [(str "total_results", PNum (inject_Z (Z.of_nat (List.length records))));
         (str "results", PList records)].

Definition second_jay : pyval :=
  api_record 8 old_time "Blue Jay" "East Austin, TX 78702"
    [photo "https://example.org/8.jpg"].

(** A record of the climate service. *)
Definition climate_record (datatype : string) (value : Q) : pyval :=
  PDict [ (str "date", PStr (str "2024-05-01T00:00:00"));
          (str "datatype", PStr (str datatype));
          (str "station", PStr (str "GHCND:USW00013904"));
          (str "value", PNum value) ].

Definition climate_response (records : list pyval) : pyval :=
  PDict [(str "metadata", PDict []); (str "results", PList records)].

(** Five records, two of each type that the Enricher reads. *)
Definition two_of_each : list pyval :=
  [ climate_record "TAVG" 70; climate_record "PRCP" (1 # 10);
    climate_record "TMAX" 85;
    climate_record "TAVG" 80; climate_record "PRCP" (1 # 5) ].

(** A climate service that has a temperature and a rain amount for the
    postal code 78701, and only a rain amount elsewhere. *)
Definition climate_service (zip_code date : pyval) : result pyval :=
  if Enricher.eq_str zip_code (str "78701")
  then Ok (climate_response [climate_record "TAVG" 70;
                             climate_record "PRCP" (1 # 10)])
  else Ok (climate_response [climate_record "PRCP" (1 # 5)]).

(** An enriched observation, as the Aggregator receives it. *)
Definition enriched (species : string) (weather : pyval) : pyval :=
  PDict [ (str "datetime", old_time);
          (str "species", PStr (str species));
          (str "zip_code", PStr (str "78701"));
          (str "coordinates", PStr (str "30.27,-97.74"));
          (str "photo_url", PStr (str "https://example.org/1.jpg"));
          (str "weather", weather) ].

Definition weather_sample (avg_temp rain : pyval) : pyval :=
  PDict [(str "avg_temp", avg_temp); (str "rain", rain)].

End Sample.

(* ================================================================== *)
(** ** What the Collector writes *)
(* ================================================================== *)

Module CollectorSpec.

(** The keys of a mapping are pairwise different (as Python compares
    them). *)
Fixpoint distinct_keys {V} (d : pydict V) : Prop :=
  match d with
  | [] => True
  | (k, _) :: rest => find_key k rest = None /\ distinct_keys rest
  end.

Section CollectorSpec.
Context {U : unicode_db}.
Variable fromisoformat : pystr -> option Collector.datetime.
Variable today : nat -> Z.

(** An observation as the Collector builds it: the five entries of the
    dict literal, with a timestamp that is a non-empty text and a postal
    code of one of the three forms. *)
Definition collected (v : pyval) : Prop :=
  exists t species z coordinates url,
    v = PDict [ (str "datetime", PStr t);
                (str "species", species);
                (str "zip_code", PStr z);
                (str "coordinates", coordinates);
                (str "photo_url", url) ] /\
    t <> [] /\ ZipSpec.zip_text z.

(** What one record asks to be written: its id and its observation, or
    nothing when a filter rejects it. These are the steps of
    [Collector.collect_one] before the assignment to the mapping. *)
Definition contribution (now : Z) (observation : pyval)
  : result (option (pyval * pyval)) :=
  observation_id <- getitem observation (str "id") ;;
  observation_datetime <- getitem observation (str "time_observed_at") ;;
  pass <- Collector.old_enough fromisoformat now observation_datetime ;;
  if (pass : bool) then
    place_guess <- dict_get observation (str "place_guess") (PStr []) ;;
    zip_code_match <- Re.re_search Re.zip_pattern place_guess ;;
    match zip_code_match with
    | Some zip_code =>
        data <- Collector.observation_data observation zip_code ;;
        Ok (Some (observation_id, data))
    | None => Ok None
    end
  else Ok None.

(** The writes of the records that pass the filters, in order; the
    [j]-th record is handled at the clock reading [today (i + j)]. *)
Fixpoint writes (i : nat) (records : list pyval) : list (pyval * pyval) :=
  match records with
  | [] => []
  | observation :: rest =>
      match contribution (today i) observation with
      | Ok (Some w) => w :: writes (S i) rest
      | _ => writes (S i) rest
      end
  end.

(** What the mapping keeps true while the loop runs. *)
Definition kept (observations : pydict pyval) : Prop :=
  Forall (fun e => hashable (fst e) = true) observations /\
  Forall (fun e => collected (snd e)) observations /\
  distinct_keys observations.

(** The value that the last write to the key [k] carries. *)
Definition last_write (k : pyval) (ws : list (pyval * pyval)) : option pyval :=
  find_key k (rev ws).

End CollectorSpec.

End CollectorSpec.

(* ================================================================== *)
(** ** The Aggregator's result, species by species *)
(* ================================================================== *)

Module Summary.

Import Aggregator AggregateSpec.








(** The number that a sample stands for. *)
Definition value (v : pyval) : Q :=
  match as_number v with
  | Some q => q
  | None => 0%Q
  end.







End Summary.

(* ================================================================== *)
(** ** The requests of a run *)
(* ================================================================== *)

Module PipelineSpec.

Import Main.




(** The climate service answers a request in a way that the Enricher
    handles: the request fails with a [RequestException], or the body
    holds a list of readable records. *)
Definition answers (noaa_get : pyval -> pyval -> result pyval)
  (zip_code date : pyval) : bool :=
  match noaa_get zip_code date with
  | Raise (RequestException _) => true
  | Raise _ => false
  | Ok body =>
      match getitem body (str "results") with
      | Ok (PList records) => forallb WeatherSpec.readable records
      | _ => false
      end
  end.

(** An observation after the enrichment, as the Aggregator reads it: it
    has a [species], and its [weather] is [None] or a dict with the two
    keys of a sample. *)
Definition enriched_shape (v : pyval) : Prop :=
  (exists label, getitem v (str "species") = Ok label) /\
  (dict_get v (str "weather") PNone = Ok PNone \/
   exists a r,
     dict_get v (str "weather") PNone
     = Ok (PDict [(str "avg_temp", a); (str "rain", r)])).

End PipelineSpec.

(* ================================================================== *)
(** ** The corners of the map: [plot_observations_on_map], lines 95-107 *)
(* ================================================================== *)

Module MapBounds.
Import Py.

(** [s.split(sep)] for a one-character separator: the texts between the
    separators, in order; an empty text gives one empty part. *)
Fixpoint split_on (sep : N) (s : pystr) : list pystr :=
  match s with
  | [] => [[]]
  | c :: rest =>
      if (c =? sep)%N then [] :: split_on sep rest
      else match split_on sep rest with
           | p :: ps => (c :: p) :: ps
           | [] => [[c]]
           end
  end.

(** [x.split(",")]: only strings have the method. *)
Definition split_comma (x : pyval) : result (list pystr) :=
  match x with
  | PStr s => Ok (split_on 44 s)
  | _ => Raise AttributeError
  end.

(** [parts[i]] on the list that [split] returns. *)
Definition part (parts : list pystr) (i : nat) : result pystr :=
  match nth_error parts i with
  | Some p => Ok p
  | None => Raise IndexError
  end.

(** [min(xs)] and [max(xs)]: the first smallest and the first largest
    element; [ValueError] on an empty list. *)
Definition smaller (m y : Q) : Q := if Qlt_le_dec y m then y else m.
Definition larger (m y : Q) : Q := if Qlt_le_dec m y then y else m.

Definition py_min (xs : list Q) : result Q :=
  match xs with
  | [] => Raise ValueError
  | x :: rest => Ok (fold_left smaller rest x)
  end.

Definition py_max (xs : list Q) : result Q :=
  match xs with
  | [] => Raise ValueError
  | x :: rest => Ok (fold_left larger rest x)
  end.

(** [x or fallback] on numbers: zero is the only falsy one. *)
Definition or_else (x fallback : Q) : Q :=
  if Qeq_bool x 0 then fallback else x.

Definition padding_factor : Q := 25 # 100.

(** The four keyword arguments that [Basemap] gets. *)
Record corners :=
  { llcrnrlat : Q; urcrnrlat : Q; llcrnrlon : Q; urcrnrlon : Q }.

Section MapBounds.

(** [float(text)]: the number that the text reads as, [None] when it
    raises [ValueError]. *)
Variable float : pystr -> option Q.

Definition py_float (s : pystr) : result Q :=
  match float s with
  | Some q => Ok q
  | None => Raise ValueError
  end.

(** [float(obs["coordinates"].split(",")[i])]. *)
Definition coordinate (i : nat) (obs : pyval) : result Q :=
  c <- getitem obs (str "coordinates") ;;
  parts <- split_comma c ;;
  p <- part parts i ;;
  py_float p.

(** The list comprehension over [observations.values()]. *)
Fixpoint coordinates (i : nat) (values : list pyval) : result (list Q) :=
  match values with
  | [] => Ok []
  | obs :: rest =>
      q <- coordinate i obs ;;
      qs <- coordinates i rest ;;
      Ok (q :: qs)
  end.

(** Lines 95-107: the latitudes, the longitudes, their extremes, the
    spreads with their fallback, and the padded corners. *)
Definition map_corners (observations : pydict pyval) : result corners :=
  lats <- coordinates 0 (map snd observations) ;;
  lons <- coordinates 1 (map snd observations) ;;
  min_lat <- py_min lats ;;
  max_lat <- py_max lats ;;
  min_lon <- py_min lons ;;
  max_lon <- py_max lons ;;
  let lat_diff := or_else (max_lat - min_lat)%Q (1 # 10) in
  let lon_diff := or_else (max_lon - min_lon)%Q (1 # 10) in
  Ok {| llcrnrlat := (min_lat - lat_diff * padding_factor)%Q;
        urcrnrlat := (max_lat + lat_diff * padding_factor)%Q;
        llcrnrlon := (min_lon - lon_diff * padding_factor * 4)%Q;
        urcrnrlon := (max_lon + lon_diff * padding_factor * 4)%Q |}.

(** An observation whose coordinates can be read. *)
Definition located (obs : pyval) (lat lon : Q) : Prop :=
  coordinate 0 obs = Ok lat /\ coordinate 1 obs = Ok lon.


End MapBounds.

End MapBounds.

(* ================================================================== *)
(** ** More concrete data *)
(* ================================================================== *)

Module MoreSamples.

Import Sample.

(** The record [jay] as the service sends it again after an edit of its
    place: the same id, another postal code. *)
Definition jay_moved : pyval :=
  api_record 1 old_time "Blue Jay" "Round Rock, TX 78664"
    [photo "https://example.org/1b.jpg"].

(** Four records: [jay], a recent sighting, [jay] again after its edit,
    and [robin]. *)
Definition four_records : list pyval := [jay; recent_jay; jay_moved; robin].

Definition four_record_service (taxon_id per_page : Z) : result pyval :=
  Ok (response four_records).

Definition austin : pyval := PStr (str "30.27,-97.74").

(** An observation as the Collector writes it, followed by the entries
    that later steps add. *)
Definition observation_at (coordinates : pyval) (species zip_code url : string)
  (added : list (pystr * pyval)) : pyval :=
  PDict ([ (str "datetime", old_time);
           (str "species", PStr (str species));
           (str "zip_code", PStr (str zip_code));
           (str "coordinates", coordinates);
           (str "photo_url", PStr (str url)) ] ++ added).

(** What the Collector makes of the four records. *)
Definition jay_and_robin : pydict pyval :=
  [ (PNum 1, observation_at austin "Blue Jay" "78664"
               "https://example.org/1b.jpg" []);
    (PNum 2, observation_at austin "Robin" "78746-1234"
               "https://example.org/2.jpg" []) ].




(** A climate service that always sends the five records. *)
Definition five_record_service (zip_code date : pyval) : result pyval :=
  Ok (climate_response two_of_each).

(** A climate service that sends a record without a [datatype]. *)
Definition truncated_record : pyval := PDict [(str "value", PNum 1)].

Definition truncated_service (zip_code date : pyval) : result pyval :=
  Ok (climate_response [climate_record "TAVG" 70; truncated_record]).



(** [float] on the coordinate texts of the examples. *)
Definition float_texts : list (pystr * Q) :=
  [ (str "30.27", 3027 # 100); (str "-97.74", -9774 # 100);
    (str "30.40", 3040 # 100); (str "-97.70", -9770 # 100) ]%Q.

Fixpoint read_in (table : list (pystr * Q)) (s : pystr) : option Q :=
  match table with
  | [] => None
  | (text, q) :: rest => if pystr_eqb s text then Some q else read_in rest s
  end.

Definition float : pystr -> option Q := read_in float_texts.



(** An observation of a record whose [location] was null. *)
Definition without_location : pydict pyval :=
  [ (PNum 1, observation_at PNone "Blue Jay" "78701"
               "https://example.org/1.jpg" []) ].

End MoreSamples.

(* ================================================================== *)
(** ** The pattern search finds postal codes *)
(* ================================================================== *)

Module ReFacts.

Import Re ZipSpec.

Section ReFacts.
Context {U : unicode_db}.

Lemma skipn_nth_cons (s : pystr) i c :
  nth_error s i = Some c -> skipn i s = c :: skipn (S i) s.
Proof.
  revert i; induction s as [|x s IH]; intros [|i] H; simpl in *; try discriminate.
  - now inversion H.
  - now apply IH.
Qed.

Lemma skipn_nth_none (s : pystr) i : nth_error s i = None -> skipn i s = [].
Proof.
  intros H. apply skipn_all2. now apply nth_error_None.
Qed.

Lemma rmatch_rep_S a n s i k :
  rmatch (Rep (S n) a) s i k = rmatch a s i (fun j => rmatch (Rep n a) s j k).
Proof. reflexivity. Qed.

Lemma rmatch_class p s i k :
  rmatch (Class_ p) s i k =
  match nth_error s i with
  | Some c => if p c then k (S i) else None
  | None => None
  end.
Proof. reflexivity. Qed.

Lemma rmatch_rep_class p n : forall s i k,
  rmatch (Rep n (Class_ p)) s i k = if run_at p n s i then k (i + n) else None.
Proof.
  induction n as [|n IH]; intros s i k.
  - unfold run_at. simpl. now rewrite Nat.add_0_r.
  - rewrite rmatch_rep_S, rmatch_class. unfold run_at.
    destruct (nth_error s i) as [c|] eqn:E.
    + rewrite (skipn_nth_cons _ _ _ E). cbn [firstn forallb List.length].
      destruct (p c); cbn [andb].
      * rewrite IH. unfold run_at. change (S n <=? S ?x) with (n <=? x).
        now rewrite Nat.add_succ_r.
      * now rewrite andb_false_r.
    + rewrite (skipn_nth_none _ _ E). reflexivity.
Qed.

Lemma rmatch_zip s i :
  rmatch zip_pattern s i Some =
  if at_boundary s i then
    if run_at is_digit 5 s i then
      match
        match (if sep_at s (i + 5)
               then if run_at is_digit 4 s (S (i + 5)) then bnd s (S (i + 5) + 4) else None
               else None) with
        | Some e => Some e
        | None => if run_at is_digit 4 s (i + 5) then bnd s (i + 5 + 4) else None
        end
      with
      | Some e => Some e
      | None => bnd s (i + 5)
      end
    else None
  else None.
Proof.
  unfold zip_pattern.
  change (rmatch (Seq Boundary ?x) s i Some)
    with (if at_boundary s i then rmatch x s i Some else None).
  destruct (at_boundary s i); [|reflexivity].
  change (rmatch (Seq (Rep 5 ?d) ?y) s i Some)
    with (rmatch (Rep 5 d) s i (fun j => rmatch y s j Some)).
  rewrite rmatch_rep_class.
  destruct (run_at is_digit 5 s i); [|reflexivity].
  set (j := i + 5).
  change (rmatch (Seq (Opt ?g) Boundary) s j Some)
    with (match rmatch g s j (bnd s) with Some e => Some e | None => bnd s j end).
  change (rmatch (Seq (Opt (Class_ is_sep)) ?r) s j (bnd s))
    with (match
             match nth_error s j with
             | Some c => if is_sep c then rmatch r s (S j) (bnd s) else None
             | None => None
             end
          with Some e => Some e | None => rmatch r s j (bnd s) end).
  rewrite !rmatch_rep_class. unfold sep_at.
  destruct (nth_error s j) as [c|]; reflexivity.
Qed.


Lemma rmatch_zip_at s i : rmatch zip_pattern s i Some = zip_at s i.
Proof.
  rewrite rmatch_zip. unfold zip_at, bnd.
  replace (S (i + 5) + 4) with (i + 10) by lia.
  replace (S (i + 5)) with (i + 6) by lia.
  replace (i + 5 + 4) with (i + 9) by lia.
  destruct (at_boundary s i), (run_at is_digit 5 s i), (sep_at s (i + 5)),
    (run_at is_digit 4 s (i + 6)), (at_boundary s (i + 10)),
    (run_at is_digit 4 s (i + 5)), (at_boundary s (i + 9)),
    (at_boundary s (i + 5)); reflexivity.
Qed.

(** *** Positions and decompositions *)

Lemma skipn_split (pre r : pystr) : skipn (List.length pre) (pre ++ r) = r.
Proof.
  rewrite skipn_app, Nat.sub_diag, skipn_all. reflexivity.
Qed.

Lemma nth_error_split (pre r : pystr) :
  nth_error (pre ++ r) (List.length pre) = nth_error r 0.
Proof.
  rewrite nth_error_app2 by lia. now rewrite Nat.sub_diag.
Qed.

Lemma word_at_split (pre r : pystr) :
  word_at (pre ++ r) (List.length pre) = starts_word r.
Proof.
  unfold word_at. rewrite nth_error_split. now destruct r.
Qed.

Lemma at_boundary_split (pre r : pystr) :
  at_boundary (pre ++ r) (List.length pre) = xorb (ends_word pre) (starts_word r).
Proof.
  unfold at_boundary. rewrite word_at_split. f_equal.
  destruct pre as [|x pre'] using rev_ind.
  - reflexivity.
  - rewrite length_app. cbn [List.length]. rewrite Nat.add_1_r.
    unfold ends_word. rewrite rev_app_distr. cbn [rev app starts_word].
    rewrite <- app_assoc. rewrite word_at_split. reflexivity.
Qed.

Lemma run_at_split p n (pre r : pystr) :
  run_at p n (pre ++ r) (List.length pre) =
  (n <=? List.length r) && forallb p (firstn n r).
Proof.
  unfold run_at. now rewrite skipn_split.
Qed.

Lemma sep_at_split (pre r : pystr) :
  sep_at (pre ++ r) (List.length pre) =
  match r with c :: _ => is_sep c | [] => false end.
Proof.
  unfold sep_at. rewrite nth_error_split. now destruct r.
Qed.

Lemma run_at_digits n (a post : pystr) :
  digits n a -> (n <=? List.length (a ++ post)) && forallb is_digit (firstn n (a ++ post)) = true.
Proof.
  intros [L D]. apply andb_true_iff. split.
  - apply Nat.leb_le. rewrite length_app. lia.
  - subst n. rewrite firstn_app, Nat.sub_diag, firstn_all. cbn [firstn].
    now rewrite app_nil_r.
Qed.

Lemma digits_of_run n (r : pystr) :
  (n <=? List.length r) && forallb is_digit (firstn n r) = true ->
  digits n (firstn n r) /\ r = firstn n r ++ skipn n r.
Proof.
  intros H. apply andb_true_iff in H as [L D]. apply Nat.leb_le in L.
  split; [split|]; auto.
  - rewrite length_firstn. lia.
  - now rewrite firstn_skipn.
Qed.


Lemma at_boundary_at s pre r j :
  s = pre ++ r -> List.length pre = j ->
  at_boundary s j = xorb (ends_word pre) (starts_word r).
Proof. intros -> <-. apply at_boundary_split. Qed.

Lemma run_at_intro s pre a r j n :
  s = pre ++ a ++ r -> List.length pre = j -> digits n a ->
  run_at is_digit n s j = true.
Proof.
  intros -> <- D. rewrite run_at_split. now apply run_at_digits.
Qed.

Lemma run_at_elim s pre r j n :
  s = pre ++ r -> List.length pre = j -> run_at is_digit n s j = true ->
  exists a r', r = a ++ r' /\ digits n a.
Proof.
  intros -> <- H. rewrite run_at_split in H.
  apply digits_of_run in H as [D E]. eauto.
Qed.

Lemma sep_at_intro s pre c r j :
  s = pre ++ c :: r -> List.length pre = j -> is_sep c = true ->
  sep_at s j = true.
Proof. intros -> <- H. now rewrite sep_at_split. Qed.

Lemma sep_at_elim s pre r j :
  s = pre ++ r -> List.length pre = j -> sep_at s j = true ->
  exists c r', r = c :: r' /\ is_sep c = true.
Proof.
  intros -> <- H. rewrite sep_at_split in H. destruct r as [|c r']; [discriminate|].
  eauto.
Qed.

Lemma firstn_exact (l r : pystr) n : List.length l = n -> firstn n (l ++ r) = l.
Proof.
  intros <-. rewrite firstn_app, Nat.sub_diag, firstn_all. cbn [firstn].
  apply app_nil_r.
Qed.

Lemma zip_at_complete s i m :
  occurs s i m -> exists e, zip_at s i = Some e /\ i + List.length m <= e.
Proof.
  intros (pre & post & Hs & Hl & Hz & Hb1 & Hb2).
  assert (B0 : at_boundary s i = true)
    by (rewrite (at_boundary_at _ _ _ _ Hs Hl); exact Hb1).
  assert (Bm : at_boundary s (i + List.length m) = true).
  { rewrite (at_boundary_at s (pre ++ m) post (i + List.length m)); auto.
    - now rewrite <- app_assoc.
    - rewrite length_app. lia. }
  unfold zip_at. rewrite B0. cbn [andb].
  destruct Hz as [a Da | a b Da Db | a c b Da Hc Db].
  - assert (La : List.length a = 5) by apply Da.
    rewrite (run_at_intro s pre a post i 5 Hs Hl Da). rewrite La in Bm.
    destruct (_ && _ && _); [exists (i + 10); split; [auto|lia]|].
    destruct (_ && _); [exists (i + 9); split; [auto|lia]|].
    rewrite Bm. exists (i + 5). split; [auto|lia].
  - assert (La : List.length a = 5) by apply Da.
    assert (Lb : List.length b = 4) by apply Db.
    rewrite <- app_assoc in Hs.
    rewrite (run_at_intro s pre a (b ++ post) i 5 Hs Hl Da).
    rewrite length_app, La, Lb in Bm. replace (i + (5 + 4)) with (i + 9) in Bm by lia.
    destruct (_ && _ && _); [exists (i + 10); split; [auto|rewrite length_app; lia]|].
    rewrite (run_at_intro s (pre ++ a) b post (i + 5) 4); auto.
    + rewrite Bm. exists (i + 9). split; [auto|rewrite length_app; lia].
    + now rewrite <- app_assoc.
    + rewrite length_app. lia.
  - assert (La : List.length a = 5) by apply Da.
    assert (Lb : List.length b = 4) by apply Db.
    rewrite <- app_assoc in Hs. cbn [app] in Hs.
    rewrite (run_at_intro s pre a (c :: b ++ post) i 5 Hs Hl Da).
    rewrite length_app in Bm. cbn [List.length] in Bm. rewrite La, Lb in Bm.
    replace (i + (5 + 5)) with (i + 10) in Bm by lia.
    rewrite (sep_at_intro s (pre ++ a) c (b ++ post) (i + 5)); auto.
    + rewrite (run_at_intro s (pre ++ a ++ [c]) b post (i + 6) 4); auto.
      * rewrite Bm. exists (i + 10). split; [auto|].
        rewrite length_app. cbn [List.length]. lia.
      * rewrite Hs. rewrite <- !app_assoc. reflexivity.
      * rewrite !length_app. cbn [List.length]. lia.
    + now rewrite <- app_assoc.
    + rewrite length_app. lia.
Qed.

Lemma zip_at_sound s i e :
  zip_at s i = Some e ->
  occurs s i (firstn (e - i) (skipn i s)) /\
  List.length (firstn (e - i) (skipn i s)) = e - i.
Proof.
  unfold zip_at. destruct (at_boundary s i) eqn:B0; [|discriminate].
  destruct (run_at is_digit 5 s i) eqn:R5; [|discriminate]. cbn [andb].
  assert (Li : i <= List.length s).
  { unfold run_at in R5. apply andb_true_iff in R5 as [L _].
    apply Nat.leb_le in L. rewrite length_skipn in L. lia. }
  set (pre := firstn i s). set (r := skipn i s).
  assert (Hs : s = pre ++ r) by (symmetry; apply firstn_skipn).
  assert (Hl : List.length pre = i) by (unfold pre; rewrite length_firstn; lia).
  destruct (run_at_elim s pre r i 5 Hs Hl R5) as (a & r1 & Hr & Da).
  assert (La : List.length a = 5) by apply Da.
  assert (Hs1 : s = (pre ++ a) ++ r1) by (rewrite <- app_assoc, <- Hr; exact Hs).
  assert (Hl1 : List.length (pre ++ a) = i + 5) by (rewrite length_app; lia).
  rewrite (at_boundary_at _ _ _ _ Hs Hl) in B0.
  destruct (sep_at s (i + 5) && run_at is_digit 4 s (i + 6) && at_boundary s (i + 10)) eqn:A.
  - intros E; inversion E; subst e; clear E.
    apply andb_true_iff in A as [A B10]. apply andb_true_iff in A as [Sp R4].
    destruct (sep_at_elim s (pre ++ a) r1 (i + 5) Hs1 Hl1 Sp) as (c & r2 & Hr1 & Hc).
    assert (Hs2 : s = (pre ++ a ++ [c]) ++ r2).
    { rewrite Hs1, Hr1. rewrite <- !app_assoc. reflexivity. }
    assert (Hl2 : List.length (pre ++ a ++ [c]) = i + 6)
      by (rewrite !length_app; cbn [List.length]; lia).
    destruct (run_at_elim s _ r2 (i + 6) 4 Hs2 Hl2 R4) as (b & post & Hr2 & Db).
    assert (Lb : List.length b = 4) by apply Db.
    assert (Hm : r = (a ++ c :: b) ++ post).
    { rewrite Hr, Hr1, Hr2. rewrite <- app_assoc. reflexivity. }
    replace (i + 10 - i) with 10 by lia. fold r.
    rewrite Hm, firstn_exact by (rewrite length_app; cbn [List.length]; lia).
    split; [|rewrite length_app; cbn [List.length]; lia].
    exists pre, post. split; [now rewrite <- Hm|]. split; [exact Hl|].
    split; [now apply zip_nine_sep|]. split; [now rewrite <- Hm|].
    unfold boundary. rewrite <- (at_boundary_at s (pre ++ a ++ c :: b) post (i + 10)); auto.
    + rewrite Hs, Hm. now rewrite <- !app_assoc.
    + rewrite !length_app. cbn [List.length]. lia.
  - clear A.
    destruct (run_at is_digit 4 s (i + 5) && at_boundary s (i + 9)) eqn:A.
    + intros E; inversion E; subst e; clear E.
      apply andb_true_iff in A as [R4 B9].
      destruct (run_at_elim s _ r1 (i + 5) 4 Hs1 Hl1 R4) as (b & post & Hr1 & Db).
      assert (Lb : List.length b = 4) by apply Db.
      assert (Hm : r = (a ++ b) ++ post) by (rewrite Hr, Hr1; apply app_assoc).
      replace (i + 9 - i) with 9 by lia. fold r.
      rewrite Hm, firstn_exact by (rewrite length_app; lia).
      split; [|rewrite length_app; lia].
      exists pre, post. split; [now rewrite <- Hm|]. split; [exact Hl|].
      split; [now apply zip_nine|]. split; [now rewrite <- Hm|].
      unfold boundary. rewrite <- (at_boundary_at s (pre ++ a ++ b) post (i + 9)); auto.
      * rewrite Hs, Hm. now rewrite <- !app_assoc.
      * rewrite !length_app. lia.
    + clear A. destruct (at_boundary s (i + 5)) eqn:B5; [|discriminate].
      intros E; inversion E; subst e; clear E.
      replace (i + 5 - i) with 5 by lia. fold r.
      rewrite Hr, firstn_exact by exact La.
      split; [|lia].
      exists pre, r1. split; [now rewrite <- Hr|]. split; [exact Hl|].
      split; [now apply zip_five|]. split; [now rewrite <- Hr|].
      unfold boundary. rewrite <- (at_boundary_at s (pre ++ a) r1 (i + 5)); auto.
Qed.


Lemma search_from_spec r s : forall more i,
  match search_from r s i more with
  | Some (i', e) =>
      i <= i' <= i + more /\ rmatch r s i' Some = Some e /\
      forall j, i <= j < i' -> rmatch r s j Some = None
  | None => forall j, i <= j <= i + more -> rmatch r s j Some = None
  end.
Proof.
  induction more as [|more IH]; intros i; cbn [search_from].
  - destruct (rmatch r s i Some) as [e|] eqn:E.
    + repeat split; try lia. exact E.
    + intros j Hj. replace j with i by lia. exact E.
  - destruct (rmatch r s i Some) as [e|] eqn:E.
    + repeat split; try lia. exact E.
    + specialize (IH (S i)).
      destruct (search_from r s (S i) more) as [[i' e]|].
      * destruct IH as (R & M & L). repeat split; try lia; auto.
        intros j Hj. destruct (Nat.eq_dec j i) as [->|]; [exact E|].
        apply L. lia.
      * intros j Hj. destruct (Nat.eq_dec j i) as [->|]; [exact E|].
        apply IH. lia.
Qed.

Lemma occurs_in_range s i m : occurs s i m -> i <= List.length s.
Proof.
  intros (pre & post & -> & <- & _). rewrite length_app. lia.
Qed.

(** The search finds the leftmost occurrence, and the longest one there. *)
Lemma search_zip_found s i m :
  occurs s i m ->
  exists i' e,
    search zip_pattern s = Some (i', e) /\
    occurs s i' (group s (i', e)) /\ i' <= i /\
    (i' = i -> List.length m <= List.length (group s (i', e))).
Proof.
  intros Ho. pose proof (occurs_in_range _ _ _ Ho) as Hi.
  destruct (zip_at_complete _ _ _ Ho) as (e0 & Z0 & Le0).
  unfold search. pose proof (search_from_spec zip_pattern s (List.length s) 0) as H.
  destruct (search_from zip_pattern s 0 (List.length s)) as [[i' e]|].
  - destruct H as (R & M & L). exists i', e. split; [reflexivity|].
    rewrite rmatch_zip_at in M. destruct (zip_at_sound _ _ _ M) as [So Sl].
    unfold group; cbn [fst snd]. split; [exact So|].
    assert (i' <= i).
    { destruct (le_lt_dec i' i); [assumption|].
      assert (N0 : rmatch zip_pattern s i Some = None) by (apply L; lia).
      rewrite rmatch_zip_at in N0. congruence. }
    split; [assumption|]. intros ->. rewrite Sl.
    assert (e = e0) by congruence. lia.
  - assert (N0 : rmatch zip_pattern s i Some = None) by (apply H; lia).
    rewrite rmatch_zip_at in N0. congruence.
Qed.

Lemma search_zip_none s :
  (forall i m, ~ occurs s i m) -> search zip_pattern s = None.
Proof.
  intros Hn. unfold search.
  pose proof (search_from_spec zip_pattern s (List.length s) 0) as H.
  destruct (search_from zip_pattern s 0 (List.length s)) as [[i' e]|]; [|reflexivity].
  destruct H as (_ & M & _). rewrite rmatch_zip_at in M.
  destruct (zip_at_sound _ _ _ M) as [So _]. now apply Hn in So.
Qed.

End ReFacts.
End ReFacts.

(* ================================================================== *)
(** ** The Collector's filters *)
(* ================================================================== *)

Module CollectorFacts.

Import Re ZipSpec Collector.

Section CollectorFacts.
Context {U : unicode_db}.
Variable fromisoformat : pystr -> option datetime.
Variable today : nat -> Z.
Variable inat_get : Z -> Z -> result pyval.

#[local] Abbreviation collect_one := (collect_one fromisoformat).
#[local] Abbreviation collect_loop := (collect_loop fromisoformat today).
#[local] Abbreviation old_enough := (old_enough fromisoformat).
#[local] Abbreviation get_inaturalist_observations :=
  (get_inaturalist_observations fromisoformat today inat_get).

(** A record that fails the time filter or has no postal code leaves the
    mapping as it was. *)
Lemma collect_one_no_zip now observations observation k t pass s :
  getitem observation (str "id") = Ok k ->
  getitem observation (str "time_observed_at") = Ok t ->
  old_enough now t = Ok pass ->
  dict_get observation (str "place_guess") (PStr []) = Ok (PStr s) ->
  search zip_pattern s = None ->
  collect_one now observations observation = Ok observations.
Proof.
  intros Hid Ht Hp Hg Hz. unfold Collector.collect_one.
  rewrite Hid, Ht. cbn [bind]. rewrite Hp. cbn [bind].
  destruct pass; [|reflexivity].
  rewrite Hg. cbn [bind re_search]. rewrite Hz. reflexivity.
Qed.

(** The loop over a list of records that starts with records that it
    handles without an exception. *)
Lemma collect_loop_app before : forall i observations observations' rest,
  collect_loop i observations before = (observations', None) ->
  collect_loop i observations (before ++ rest) =
  collect_loop (i + List.length before) observations' rest.
Proof.
  induction before as [|r before IH]; intros i obs obs' rest H.
  - cbn in H. inversion H; subst. cbn. now rewrite Nat.add_0_r.
  - cbn [Collector.collect_loop app List.length] in *.
    destruct (collect_one (today i) obs r) as [obs1|e]; [|discriminate].
    rewrite (IH _ _ _ rest H). f_equal. lia.
Qed.

(** C6. The postal-code extractor is the search for the ZIP pattern in the
    place description. When the description contains a five-digit or
    ZIP+4 code as a word of its own, the search returns such a code: the
    leftmost one, in its longest form, and therefore that very code when it
    is the only one. When the description contains none, the search finds
    nothing and the record adds nothing to the mapping. *)
Theorem postal_code_extraction (s : pystr) :
  (forall i m, occurs s i m ->
     exists i' m',
       re_search zip_pattern (PStr s) = Ok (Some m') /\
       occurs s i' m' /\ i' <= i /\
       (i' = i -> List.length m <= List.length m')) /\
  (forall i m, occurs s i m ->
     (forall i' m', occurs s i' m' -> i' = i /\ m' = m) ->
     re_search zip_pattern (PStr s) = Ok (Some m)) /\
  ((forall i m, ~ occurs s i m) ->
     re_search zip_pattern (PStr s) = Ok None /\
     forall now observations observation k t pass,
       getitem observation (str "id") = Ok k ->
       getitem observation (str "time_observed_at") = Ok t ->
       old_enough now t = Ok pass ->
       dict_get observation (str "place_guess") (PStr []) = Ok (PStr s) ->
       collect_one now observations observation = Ok observations).
Proof.
  assert (Found : forall i m, occurs s i m ->
     exists i' m',
       re_search zip_pattern (PStr s) = Ok (Some m') /\
       occurs s i' m' /\ i' <= i /\
       (i' = i -> List.length m <= List.length m')).
  { intros i m Ho.
    destruct (ReFacts.search_zip_found _ _ _ Ho) as (i' & e & Hs & Ho' & Hle & Hlen).
    exists i', (group s (i', e)). cbn [re_search]. rewrite Hs. auto. }
  split; [exact Found|]. split.
  - intros i m Ho Huniq.
    destruct (Found i m Ho) as (i' & m' & Hr & Ho' & _).
    destruct (Huniq _ _ Ho') as [_ ->]. exact Hr.
  - intros Hnone. pose proof (ReFacts.search_zip_none _ Hnone) as Hs.
    split.
    + cbn [re_search]. now rewrite Hs.
    + intros now obs o k t pass Hid Ht Hp Hg.
      eapply collect_one_no_zip; eauto.
Qed.

(** C7. A record whose timestamp lies strictly after [now - 2 days] adds
    nothing to the mapping and raises nothing, whatever its place
    description, photos and other fields are; the loop goes on with the
    mapping as it was. *)
Theorem too_recent_is_skipped i observations observation rest k t d :
  getitem observation (str "id") = Ok k ->
  getitem observation (str "time_observed_at") = Ok (PStr t) ->
  fromisoformat t = Some d ->
  (today i - two_days < wall d)%Z ->
  collect_one (today i) observations observation = Ok observations /\
  collect_loop i observations (observation :: rest) =
  collect_loop (S i) observations rest.
Proof.
  intros Hid Ht Hd Hlt.
  assert (H1 : collect_one (today i) observations observation = Ok observations).
  { unfold Collector.collect_one. rewrite Hid, Ht. cbn [bind].
    unfold Collector.old_enough, datetime_fromisoformat.
    destruct t as [|c t']; [reflexivity|]. cbn [truthy]. rewrite Hd.
    cbn [bind replace_tzinfo_none wall].
    replace (wall d <? today i - two_days)%Z with false; [reflexivity|].
    symmetry. apply Z.ltb_ge. lia. }
  split; [exact H1|]. cbn [Collector.collect_loop]. now rewrite H1.
Qed.

(** C8. A record that passes the time filter and has a postal code, with
    its species and location fields, but with an empty photo list makes
    the loop body raise [IndexError]; the exception is not caught and
    leaves [get_inaturalist_observations]. *)
Theorem empty_photos_raise_index_error
  taxon_id per_page body before after observations observation
  k t place zip_code sp loc :
  inat_get taxon_id per_page = Ok body ->
  getitem body (str "results") = Ok (PList (before ++ observation :: after)) ->
  collect_loop 0 [] before = (observations, None) ->
  getitem observation (str "id") = Ok k ->
  getitem observation (str "time_observed_at") = Ok t ->
  old_enough (today (List.length before)) t = Ok true ->
  dict_get observation (str "place_guess") (PStr []) = Ok place ->
  re_search zip_pattern place = Ok (Some zip_code) ->
  getitem observation (str "species_guess") = Ok sp ->
  getitem observation (str "location") = Ok loc ->
  getitem observation (str "observation_photos") = Ok (PList []) ->
  collect_one (today (List.length before)) observations observation
    = Raise IndexError /\
  get_inaturalist_observations taxon_id per_page = ([], Raise IndexError).
Proof.
  intros Hget Hres Hbefore Hid Ht Hp Hg Hz Hsp Hloc Hph.
  assert (H1 : collect_one (today (List.length before)) observations observation
               = Raise IndexError).
  { unfold Collector.collect_one. rewrite Hid, Ht. cbn [bind]. rewrite Hp.
    cbn [bind]. rewrite Hg. cbn [bind]. rewrite Hz. cbn [bind].
    unfold observation_data. rewrite Ht, Hsp, Hloc, Hph. reflexivity. }
  split; [exact H1|].
  unfold Collector.get_inaturalist_observations, collect_try.
  rewrite Hget, Hres. cbn [iterate].
  rewrite (collect_loop_app before 0 [] observations (observation :: after) Hbefore).
  cbn [Collector.collect_loop Nat.add]. rewrite H1. reflexivity.
Qed.

(** C10 (amended). A record whose [time_observed_at] is present and null
    adds nothing to the mapping and raises nothing, whatever its other
    fields are; a record without the key makes the loop body raise
    [KeyError]. *)
Theorem null_timestamp_is_skipped now observations observation k :
  getitem observation (str "id") = Ok k ->
  (getitem observation (str "time_observed_at") = Ok PNone ->
   collect_one now observations observation = Ok observations) /\
  (getitem observation (str "time_observed_at") = Raise KeyError ->
   collect_one now observations observation = Raise KeyError).
Proof.
  intros Hid. split; intros Ht; unfold Collector.collect_one;
    rewrite Hid, Ht; reflexivity.
Qed.

End CollectorFacts.

End CollectorFacts.

(** *** The Collector on concrete records *)

Module CollectorExamples.

Import Re ZipSpec Collector Sample.

#[local] Existing Instance ascii_only.

(** The place description of the record [jay] contains the code 78701 at
    position 11, and the search returns it. *)
Example austin_has_a_postal_code :
  occurs (str "Austin, TX 78701, USA") 11 (str "78701") /\
  re_search zip_pattern (PStr (str "Austin, TX 78701, USA"))
    = Ok (Some (str "78701")).
Proof.
  split; [|reflexivity].
  exists (str "Austin, TX "), (str ", USA"). split; [reflexivity|].
  split; [reflexivity|]. split; [|split; reflexivity].
  apply zip_five. split; reflexivity.
Qed.

(** C6 on the place description of [jay], whose code stands at position 11. *)
Lemma postal_code_extraction_witness :
  exists i' m',
    re_search zip_pattern (PStr (str "Austin, TX 78701, USA")) = Ok (Some m') /\
    occurs (str "Austin, TX 78701, USA") i' m' /\ i' <= 11 /\
    (i' = 11 -> List.length (str "78701") <= List.length m').
Proof.
  apply (proj1 (@CollectorFacts.postal_code_extraction ascii_only
                  Sample.fromisoformat (str "Austin, TX 78701, USA"))
           11 (str "78701")).
  exact (proj1 austin_has_a_postal_code).
Defined.

(** A ZIP+4 code is returned whole; six digits in a row are no code. *)
Example zip_plus_four_is_returned_whole :
  re_search zip_pattern
    (PStr (str "Zilker Park, Austin, TX 78746-1234"))
    = Ok (Some (str "78746-1234")) /\
  re_search zip_pattern (PStr (str "Lot 787011, Austin"))
    = Ok None.
Proof. split; reflexivity. Qed.

(** The whole Collector on five records: only the two old records with a
    postal code are kept. *)
Example collector_keeps_old_records_with_a_code :
  option_map (map fst)
    (match get_inaturalist_observations
             Sample.fromisoformat Sample.today
             (fun _ _ => Ok (response
                [jay; recent_jay; jay_with_null_time; jay_without_zip; robin]))
             1 10
     with
     | (_, Ok observations) => Some observations
     | (_, Raise _) => None
     end)
  = Some [PNum 1; PNum 2].
Proof. reflexivity. Qed.

(** C7 on the record [recent_jay], observed less than a day before the
    clock's reading. *)
Lemma too_recent_is_skipped_witness :
  getitem recent_jay (str "id") = Ok (PNum 3) /\
  (Sample.today 0 - two_days < 8 * day + 18 * 3600 * 1000000 + 1800 * 1000000)%Z /\
  collect_one Sample.fromisoformat (Sample.today 0) []
    recent_jay = Ok [] /\
  collect_loop Sample.fromisoformat Sample.today 0 []
    [recent_jay; robin]
  = collect_loop Sample.fromisoformat Sample.today 1 [] [robin].
Proof.
  split; [reflexivity|]. split; [reflexivity|].
  apply (@CollectorFacts.too_recent_is_skipped ascii_only
           Sample.fromisoformat Sample.today 0 [] recent_jay [robin]
           (PNum 3) (str "2024-05-09T18:30:00-05:00")
           {| wall := 8 * day + 18 * 3600 * 1000000 + 1800 * 1000000;
              tzinfo := Some (-5 * 3600 * 1000000)%Z |});
    reflexivity.
Defined.

(** C8 on the record [jay_without_photo], between two complete records. *)
Lemma empty_photos_raise_index_error_witness :
  getitem jay_without_photo (str "observation_photos") = Ok (PList []) /\
  get_inaturalist_observations
    Sample.fromisoformat Sample.today
    (fun _ _ => Ok (response [jay; jay_without_photo; robin])) 1 10
  = ([], Raise IndexError).
Proof.
  split; [reflexivity|].
  refine (proj2 (@CollectorFacts.empty_photos_raise_index_error ascii_only
           Sample.fromisoformat Sample.today
           (fun _ _ => Ok (response [jay; jay_without_photo; robin]))
           1%Z 10%Z (response [jay; jay_without_photo; robin])
           [jay] [robin]
           (fst (collect_loop Sample.fromisoformat Sample.today
                   0 [] [jay]))
           jay_without_photo (PNum 4) old_time
           (PStr (str "Austin, TX 78701, USA")) (str "78701")
           (PStr (str "Blue Jay")) (PStr (str "30.27,-97.74"))
           _ _ _ _ _ _ _ _ _ _ _)); reflexivity.
Defined.

(** C10 (amended) on the record [jay_with_null_time]. *)
Lemma null_timestamp_is_skipped_witness :
  getitem jay_with_null_time (str "id") = Ok (PNum 5) /\
  getitem jay_with_null_time (str "time_observed_at") = Ok PNone /\
  collect_one Sample.fromisoformat (Sample.today 0) []
    jay_with_null_time = Ok [].
Proof.
  split; [reflexivity|]. split; [reflexivity|].
  apply (proj1 (@CollectorFacts.null_timestamp_is_skipped ascii_only
                  Sample.fromisoformat (Sample.today 0) []
                  jay_with_null_time (PNum 5) eq_refl)).
  reflexivity.
Defined.

(** C10, as stated, fails: a record without the [time_observed_at] key is
    not skipped. Reading the key raises [KeyError], which leaves the
    Collector; no mapping is returned, not even for the record before. *)
Lemma missing_timestamp_raises_key_error :
  getitem jay_without_time (str "time_observed_at") = Raise KeyError /\
  get_inaturalist_observations
    Sample.fromisoformat Sample.today
    (fun _ _ => Ok (response [jay; jay_without_time])) 1 10
  = ([], Raise KeyError).
Proof. split; reflexivity. Qed.

End CollectorExamples.

(* ================================================================== *)
(** ** The Enricher's result *)
(* ================================================================== *)

Module EnricherFacts.

Import Enricher WeatherSpec.

Lemma pystr_eqb_eq a b : pystr_eqb a b = true -> a = b.
Proof.
  unfold pystr_eqb. destruct (list_eq_dec N.eq_dec a b); [auto|discriminate].
Qed.

Lemma eq_str_exclusive d :
  eq_str d (str "TAVG") = true -> eq_str d (str "PRCP") = false.
Proof.
  destruct d; cbn [eq_str]; try discriminate.
  intros H. apply pystr_eqb_eq in H. subst s. reflexivity.
Qed.

Lemma find_app {A} (f : A -> bool) l1 l2 :
  find f (l1 ++ l2) =
  match find f l1 with
  | Some x => Some x
  | None => find f l2
  end.
Proof.
  induction l1 as [|x l1 IH]; cbn; [reflexivity|]. now destruct (f x).
Qed.

(** Overwriting in order leaves the value of the last record of the type. *)
Lemma overwritten_last tag records : forall init,
  overwritten tag init records =
  match find (datatype_is tag) (rev records) with
  | Some record => value_of record
  | None => init
  end.
Proof.
  unfold overwritten.
  induction records as [|x records IH]; intros init; cbn [fold_left rev].
  - reflexivity.
  - rewrite IH, find_app. destruct (find (datatype_is tag) (rev records)).
    + reflexivity.
    + cbn [find]. now destruct (datatype_is tag x).
Qed.

Lemma overwritten_none tag records :
  overwritten tag PNone records = last_value tag records.
Proof.
  rewrite overwritten_last. reflexivity.
Qed.

Lemma overwritten_cons tag init x records :
  overwritten tag init (x :: records) =
  overwritten tag (if datatype_is tag x then value_of x else init) records.
Proof. reflexivity. Qed.

(** The loop on readable records: each field is overwritten by every
    record of its type. *)
Lemma weather_loop_readable records : forall a r,
  forallb readable records = true ->
  weather_loop [(str "avg_temp", a); (str "rain", r)] records =
  Ok [(str "avg_temp", overwritten (str "TAVG") a records);
      (str "rain", overwritten (str "PRCP") r records)].
Proof.
  induction records as [|x records IH]; intros a r H.
  - reflexivity.
  - cbn [forallb] in H. apply andb_true_iff in H as [Hx H].
    rewrite !overwritten_cons. cbn [weather_loop]. unfold weather_step.
    unfold readable in Hx. unfold datatype_is, value_of.
    destruct (getitem x (str "datatype")) as [d|]; [|discriminate].
    cbn [bind].
    destruct (eq_str d (str "TAVG")) eqn:Ht.
    + rewrite (eq_str_exclusive _ Ht).
      cbn [orb] in Hx.
      destruct (getitem x (str "value")) as [v|]; [|discriminate].
      cbn [bind]. change (dict_set (str "avg_temp") v
                            [(str "avg_temp", a); (str "rain", r)])
        with [(str "avg_temp", v); (str "rain", r)].
      apply (IH v r H).
    + cbn [orb] in Hx. destruct (eq_str d (str "PRCP")) eqn:Hp.
      * destruct (getitem x (str "value")) as [v|]; [|discriminate].
        cbn [bind]. change (dict_set (str "rain") v
                              [(str "avg_temp", a); (str "rain", r)])
          with [(str "avg_temp", a); (str "rain", v)].
        apply (IH a v H).
      * cbn [bind]. apply (IH a r H).
Qed.

Lemma unrelated_readable record : unrelated record = true -> readable record = true.
Proof.
  unfold unrelated, readable.
  destruct (getitem record (str "datatype")); [|discriminate].
  destruct (_ || _); [discriminate|reflexivity].
Qed.

Lemma unrelated_not_found tag records :
  tag = str "TAVG" \/ tag = str "PRCP" ->
  forallb unrelated records = true ->
  find (datatype_is tag) records = None.
Proof.
  intros Htag. induction records as [|x records IH]; cbn [forallb find]; [reflexivity|].
  intros H. apply andb_true_iff in H as [Hx H]. rewrite (IH H).
  unfold unrelated in Hx. unfold datatype_is.
  destruct (getitem x (str "datatype")) as [d|]; [|discriminate].
  apply negb_true_iff, orb_false_iff in Hx as [H1 H2].
  destruct Htag; subst tag; [now rewrite H1|now rewrite H2].
Qed.

Lemma forallb_rev {A} (f : A -> bool) l : forallb f (rev l) = forallb f l.
Proof.
  induction l as [|x l IH]; cbn [rev forallb]; [reflexivity|].
  rewrite forallb_app, IH. cbn [forallb]. rewrite andb_true_r. apply andb_comm.
Qed.

Section EnricherFacts.
Variable noaa_get : pyval -> pyval -> result pyval.

#[local] Abbreviation get_weather_for_observation :=
  (get_weather_for_observation noaa_get).

(** C2 (amended). When the response's records are readable, [avg_temp] is
    the value of the last [TAVG] record and [rain] the value of the last
    [PRCP] record of the results list ([None] without such a record). *)
Theorem last_record_wins zip_code date body records :
  noaa_get zip_code date = Ok body ->
  getitem body (str "results") = Ok (PList records) ->
  forallb readable records = true ->
  get_weather_for_observation zip_code date =
  ([], Ok (PDict [(str "avg_temp", last_value (str "TAVG") records);
                  (str "rain", last_value (str "PRCP") records)])).
Proof.
  intros Hget Hres Hrd.
  unfold Enricher.get_weather_for_observation, weather_try.
  rewrite Hget. cbn [bind]. rewrite Hres. cbn [bind iterate].
  rewrite (weather_loop_readable _ _ _ Hrd). cbn [bind].
  now rewrite !overwritten_none.
Qed.

(** C3 (amended). When the climate service answers and its results hold
    no [TAVG] and no [PRCP] record, the Enricher returns a weather sample
    whose two fields are null: a dict, not [None]. When the request fails
    with a [RequestException], the Enricher prints the error and returns
    [None], never a sample. *)
Theorem lookup_without_match_or_with_failure zip_code date :
  (forall body records,
     noaa_get zip_code date = Ok body ->
     getitem body (str "results") = Ok (PList records) ->
     forallb unrelated records = true ->
     get_weather_for_observation zip_code date =
     ([], Ok (PDict [(str "avg_temp", PNone); (str "rain", PNone)]))) /\
  (forall msg,
     noaa_get zip_code date = Raise (RequestException msg) ->
     get_weather_for_observation zip_code date =
     ([str "Error fetching NOAA data: " ++ msg], Ok PNone)).
Proof.
  split.
  - intros body records Hget Hres Hun.
    assert (Hrd : forallb readable records = true).
    { rewrite forallb_forall in *. intros x Hx. apply unrelated_readable; auto. }
    unfold Enricher.get_weather_for_observation, weather_try.
    rewrite Hget. cbn [bind]. rewrite Hres. cbn [bind iterate].
    rewrite (weather_loop_readable _ _ _ Hrd). cbn [bind].
    rewrite !overwritten_last, !unrelated_not_found; auto;
      now rewrite forallb_rev.
  - intros msg Hget.
    unfold Enricher.get_weather_for_observation, weather_try.
    rewrite Hget. reflexivity.
Qed.

End EnricherFacts.

End EnricherFacts.

(** *** The Enricher on concrete responses *)

Module EnricherExamples.

Import Enricher WeatherSpec Sample.

(** C2, as stated, fails: with two [TAVG] and two [PRCP] records, the
    Enricher returns the values of the later records (80 and 0.2), not
    those of the first ones (70 and 0.1). *)
Lemma first_record_does_not_win :
  get_weather_for_observation
    (fun _ _ => Ok (climate_response two_of_each))
    (PStr (str "78701")) (PStr (str "2024-05-01"))
  = ([], Ok (weather_sample (PNum 80) (PNum (1 # 5)))) /\
  first_value (str "TAVG") two_of_each = PNum 70 /\
  first_value (str "PRCP") two_of_each = PNum (1 # 10).
Proof. repeat split. Qed.

(** C2 (amended) on the same response. *)
Lemma last_record_wins_witness :
  forallb readable two_of_each = true /\
  get_weather_for_observation
    (fun _ _ => Ok (climate_response two_of_each))
    (PStr (str "78701")) (PStr (str "2024-05-01"))
  = ([], Ok (PDict [(str "avg_temp", last_value (str "TAVG") two_of_each);
                    (str "rain", last_value (str "PRCP") two_of_each)])).
Proof.
  split; [reflexivity|].
  apply (EnricherFacts.last_record_wins
           (fun _ _ => Ok (climate_response two_of_each))
           (PStr (str "78701")) (PStr (str "2024-05-01"))
           (climate_response two_of_each) two_of_each);
    reflexivity.
Defined.

(** C3, as stated, fails: when the service answers with no [TAVG] and no
    [PRCP] record, the Enricher does not return [None]. It returns a dict
    with two null fields, which is a true value, so [main] stores a
    non-null weather and the Aggregator takes the observation in. *)
Lemma no_match_is_not_null :
  get_weather_for_observation
    (fun _ _ => Ok (climate_response [climate_record "TMAX" 85]))
    (PStr (str "78701")) (PStr (str "2024-05-01"))
  = ([], Ok (weather_sample PNone PNone)) /\
  weather_sample PNone PNone <> PNone /\
  truthy (weather_sample PNone PNone) = true.
Proof. repeat split. discriminate. Qed.

(** A body without the [results] key: the [KeyError] is not caught. *)
Example empty_body_raises_key_error :
  get_weather_for_observation (fun _ _ => Ok (PDict []))
    (PStr (str "78701")) (PStr (str "2024-05-01"))
  = ([], Raise KeyError).
Proof. reflexivity. Qed.

(** C3 (amended) on a response with a [TMAX] record only, and on a
    request that fails. *)
Lemma lookup_without_match_or_with_failure_witness :
  get_weather_for_observation
    (fun _ _ => Ok (climate_response [climate_record "TMAX" 85]))
    (PStr (str "78701")) (PStr (str "2024-05-01"))
  = ([], Ok (PDict [(str "avg_temp", PNone); (str "rain", PNone)])) /\
  get_weather_for_observation
    (fun _ _ => Raise (RequestException (str "503 Server Error")))
    (PStr (str "78701")) (PStr (str "2024-05-01"))
  = ([str "Error fetching NOAA data: 503 Server Error"], Ok PNone).
Proof.
  split.
  - apply (proj1 (EnricherFacts.lookup_without_match_or_with_failure
                    (fun _ _ => Ok (climate_response [climate_record "TMAX" 85]))
                    (PStr (str "78701")) (PStr (str "2024-05-01")))
             (climate_response [climate_record "TMAX" 85])
             [climate_record "TMAX" 85]); reflexivity.
  - apply (proj2 (EnricherFacts.lookup_without_match_or_with_failure
                    (fun _ _ => Raise (RequestException (str "503 Server Error")))
                    (PStr (str "78701")) (PStr (str "2024-05-01")))).
    reflexivity.
Defined.

End EnricherExamples.

(* ================================================================== *)
(** ** The Aggregator's arithmetic *)
(* ================================================================== *)

Module AggregatorFacts.

Import Aggregator AggregateSpec.










(** *** Which species the output holds *)




















End AggregatorFacts.

(** *** The Aggregator on concrete observations *)

Module AggregatorExamples.

Import Aggregator AggregateSpec Sample.

(** Samples [70, 80] and [0.1, 0.3] give the mean 75 and the sum 0.4. *)
Example two_valid_samples :
  aggregated_data
    [ (PNum 1, enriched "Blue Jay" (weather_sample (PNum 70) (PNum (1 # 10))));
      (PNum 2, enriched "Blue Jay" (weather_sample (PNum 80) (PNum (3 # 10)))) ]
  = Ok [ {| species := PStr (str "Blue Jay"); avg_temp := 75; rain := 2 # 5 |} ].
Proof. reflexivity. Qed.

(** The mean is truncated toward zero, also below zero. *)
Example truncation_toward_zero :
  aggregated_data
    [ (PNum 1, enriched "Snowy Owl" (weather_sample (PNum (-7)) (PNum 0)));
      (PNum 2, enriched "Snowy Owl" (weather_sample (PNum (-4)) (PNum 0))) ]
  = Ok [ {| species := PStr (str "Snowy Owl"); avg_temp := -5; rain := 0 |} ].
Proof. reflexivity. Qed.

(** A species whose observations all have a null weather, and an
    observation without a label, are left out. *)
Example null_weather_is_left_out :
  aggregated_data
    [ (PNum 1, enriched "Blue Jay" (weather_sample (PNum 70) (PNum (1 # 10))));
      (PNum 2, enriched "Robin" PNone);
      (PNum 3, enriched "" (weather_sample (PNum 60) (PNum 0))) ]
  = Ok [ {| species := PStr (str "Blue Jay"); avg_temp := 70; rain := 1 # 10 |} ].
Proof. reflexivity. Qed.




(** C1. The claim's own example: temperature samples [70, None] and rain
    samples [0.1, 0.2] of one species. The Aggregator does not compute a
    mean over the non-null sample: [sum] meets the null and raises
    [TypeError], and no aggregate is emitted. *)
Theorem null_temperature_raises_type_error :
  aggregated_data
    [ (PNum 1, enriched "Blue Jay" (weather_sample (PNum 70) (PNum (1 # 10))));
      (PNum 2, enriched "Blue Jay" (weather_sample PNone (PNum (1 # 5)))) ]
  = Raise TypeError.
Proof. reflexivity. Qed.

(** C4. A species group with two valid temperature samples and one valid
    rain sample beside a null one: no mean and no sum are emitted, the
    Aggregator raises [TypeError]. *)
Theorem null_rain_raises_type_error :
  aggregate_one (PStr (str "Blue Jay"),
                 ([PNum 70; PNum 80], [PNum (1 # 10); PNone])) = Raise TypeError /\
  aggregated_data
    [ (PNum 1, enriched "Blue Jay" (weather_sample (PNum 70) (PNum (1 # 10))));
      (PNum 2, enriched "Blue Jay" (weather_sample (PNum 80) PNone)) ]
  = Raise TypeError.
Proof. split; reflexivity. Qed.

(** C5. A species without any valid sample is not dropped: with a Blue Jay
    that has valid samples and a Robin whose only weather has two null
    fields, the Aggregator raises [TypeError] and reports no species at
    all. *)
Theorem species_without_valid_sample_is_not_dropped :
  aggregated_data
    [ (PNum 1, enriched "Blue Jay" (weather_sample (PNum 70) (PNum (1 # 10))));
      (PNum 2, enriched "Robin" (weather_sample PNone PNone)) ]
  = Raise TypeError.
Proof. reflexivity. Qed.

End AggregatorExamples.

(* ================================================================== *)
(** ** The run after a failed request *)
(* ================================================================== *)

Module MainFacts.

Import Collector Main.

(** No step of the loop body raises a [RequestException]. *)
Lemma plain_bind {A B} (c : result A) (k : A -> result B) :
  plain c -> (forall a, plain (k a)) -> plain (bind c k).
Proof.
  intros Hc Hk msg. destruct c as [a|e]; cbn [bind].
  - apply Hk.
  - intros H. apply (Hc msg). inversion H. reflexivity.
Qed.

Lemma plain_ok {A} (a : A) : plain (Ok a).
Proof. intros msg. discriminate. Qed.

Lemma plain_getitem o k : plain (getitem o k).
Proof.
  intros msg. destruct o; cbn [getitem]; try discriminate.
  destruct (lookup k d); discriminate.
Qed.

Lemma plain_getitem0 o : plain (getitem0 o).
Proof.
  intros msg. destruct o as [| | |s|l|d]; cbn [getitem0]; try discriminate.
  - destruct s; discriminate.
  - destruct l; discriminate.
Qed.

Lemma plain_dict_get o k v : plain (dict_get o k v).
Proof.
  intros msg. destruct o; cbn [dict_get]; try discriminate.
  destruct (lookup k d); discriminate.
Qed.

Lemma plain_setitem {V} (d : pydict V) k v : plain (setitem d k v).
Proof.
  intros msg. unfold setitem. destruct (hashable k); discriminate.
Qed.

Section MainFacts.
Context {U : unicode_db}.
Variable fromisoformat : pystr -> option datetime.
Variable today : nat -> Z.
Variable inat_get : Z -> Z -> result pyval.
Variable noaa_get : pyval -> pyval -> result pyval.
Variable plot_observations_on_map : pydict pyval -> result unit.

#[local] Abbreviation get_inaturalist_observations :=
  (get_inaturalist_observations fromisoformat today inat_get).
#[local] Abbreviation main :=
  (main fromisoformat today inat_get noaa_get plot_observations_on_map).

Lemma plain_old_enough now t : plain (old_enough fromisoformat now t).
Proof.
  intros msg. unfold old_enough. destruct (truthy t); [|discriminate].
  unfold datetime_fromisoformat. destruct t; try discriminate.
  destruct (fromisoformat s); discriminate.
Qed.

Lemma plain_re_search r x : plain (Re.re_search r x).
Proof. intros msg. destruct x; discriminate. Qed.

Lemma plain_collect_one now observations observation :
  plain (collect_one fromisoformat now observations observation).
Proof.
  unfold collect_one.
  apply plain_bind; [apply plain_getitem|intros k].
  apply plain_bind; [apply plain_getitem|intros t].
  apply plain_bind; [apply plain_old_enough|intros pass].
  destruct pass; [|apply plain_ok].
  apply plain_bind; [apply plain_dict_get|intros place].
  apply plain_bind; [apply plain_re_search|intros [zip_code|]]; [|apply plain_ok].
  apply plain_bind; [|intros data; apply plain_setitem].
  unfold observation_data.
  repeat (apply plain_bind;
          [first [apply plain_getitem|apply plain_getitem0]|intros ?]).
  apply plain_ok.
Qed.

Lemma plain_collect_loop records : forall i observations observations' msg,
  collect_loop fromisoformat today i observations records
  <> (observations', Some (RequestException msg)).
Proof.
  induction records as [|r records IH]; intros i obs obs' msg; cbn [collect_loop].
  - discriminate.
  - destruct (collect_one fromisoformat (today i) obs r) as [obs1|e] eqn:E.
    + apply IH.
    + intros H. inversion H; subst. exact (plain_collect_one _ _ _ _ E).
Qed.

(** X4. The handler of [get_inaturalist_observations] is reached only when
    the request itself failed, and then the mapping is still empty. *)
Lemma caught_before_the_loop taxon_id per_page observations msg :
  collect_try fromisoformat today inat_get taxon_id per_page
  = (observations, Some (RequestException msg)) ->
  inat_get taxon_id per_page = Raise (RequestException msg) /\ observations = [].
Proof.
  unfold collect_try. destruct (inat_get taxon_id per_page) as [body|e].
  - destruct (getitem body (str "results")) as [rs|e] eqn:E1.
    + destruct (iterate rs) as [records|e] eqn:E2.
      * intros H. now apply plain_collect_loop in H.
      * intros H. inversion H; subst. destruct rs; discriminate.
    + intros H. inversion H; subst. now apply plain_getitem in E1.
  - intros H. inversion H; subst. auto.
Qed.

(** C9. When the request to the biodiversity service fails with a
    [RequestException] (a transport error, or the [HTTPError] that
    [raise_for_status] raises for a status outside 2xx), the Collector
    prints the error and returns the empty mapping; [main] then prints
    that no observations were found and returns: no request to the
    climate service, no plot. *)
Theorem request_failure_ends_run taxon_id per_page msg :
  inat_get taxon_id per_page = Raise (RequestException msg) ->
  get_inaturalist_observations taxon_id per_page
  = ([str "Error fetching iNaturalist data: " ++ msg], Ok []) /\
  main (Some taxon_id) (Some per_page)
  = ([Print (str "Error fetching iNaturalist data: " ++ msg);
      Print (str "No observations found.")], Ok tt).
Proof.
  intros H.
  assert (H1 : get_inaturalist_observations taxon_id per_page
               = ([str "Error fetching iNaturalist data: " ++ msg], Ok [])).
  { unfold Collector.get_inaturalist_observations, collect_try. now rewrite H. }
  split; [exact H1|].
  unfold Main.main, run. rewrite H1. reflexivity.
Qed.

End MainFacts.

End MainFacts.

(** *** Whole runs *)

Module MainExamples.

Import Collector Main Sample.

#[local] Existing Instance ascii_only.

(** C9 on a run whose request is answered with an error status. *)
Lemma request_failure_ends_run_witness :
  main Sample.fromisoformat Sample.today
    (fun _ _ => Raise (RequestException (str "503 Server Error")))
    (fun _ _ => Ok (climate_response []))
    (fun _ => Ok tt)
    (Some 3017%Z) (Some 10%Z)
  = ([Print (str "Error fetching iNaturalist data: 503 Server Error");
      Print (str "No observations found.")], Ok tt).
Proof.
  apply (proj2 (@MainFacts.request_failure_ends_run ascii_only
                  Sample.fromisoformat Sample.today
                  (fun _ _ => Raise (RequestException (str "503 Server Error")))
                  (fun _ _ => Ok (climate_response []))
                  (fun _ => Ok tt)
                  3017%Z 10%Z (str "503 Server Error") eq_refl)).
Defined.

(** A request that times out. *)
Lemma caught_before_the_loop_witness :
  collect_try Sample.fromisoformat Sample.today
    (fun _ _ => Raise (RequestException (str "timed out"))) 3017 10
  = ([], Some (RequestException (str "timed out"))) /\
  (Raise (RequestException (str "timed out")) : result pyval)
  = Raise (RequestException (str "timed out")) /\
  ([] : pydict pyval) = [].
Proof.
  split; [reflexivity|].
  apply (@MainFacts.caught_before_the_loop ascii_only
           Sample.fromisoformat Sample.today
           (fun _ _ => Raise (RequestException (str "timed out")))
           3017%Z 10%Z [] (str "timed out")).
  reflexivity.
Defined.

(** A run in which the climate service has a temperature for one Blue
    Jay and only a rain amount for the other one: the Enricher attaches
    the samples (70, 0.1) and (None, 0.2), and the run ends in the
    [TypeError] of the Aggregator. *)
Example run_with_a_null_temperature :
  snd (main Sample.fromisoformat Sample.today
         (fun _ _ => Ok (response [jay; second_jay]))
         climate_service
         (fun _ => Ok tt)
         (Some 3017%Z) (Some 10%Z))
  = Raise TypeError.
Proof. reflexivity. Qed.

End MainExamples.

(* ================================================================== *)
(** ** Mappings keyed by Python values *)
(* ================================================================== *)

Module DictFacts.

Lemma pystr_eqb_iff a b : pystr_eqb a b = true <-> a = b.
Proof.
  unfold pystr_eqb. destruct (list_eq_dec N.eq_dec a b); split; congruence.
Qed.

(** Two keys that compare equal are two numbers of the same value, twice
    [None], or the same text. *)
Lemma key_eqb_cases a b :
  key_eqb a b = true ->
  (exists x y, as_number a = Some x /\ as_number b = Some y /\ (x == y)%Q) \/
  (a = PNone /\ b = PNone) \/
  (exists s, a = PStr s /\ b = PStr s).
Proof.
  unfold key_eqb.
  destruct (as_number a) as [x|] eqn:Ea, (as_number b) as [y|] eqn:Eb;
    try discriminate.
  - intros H. apply Qeq_bool_iff in H. left. eauto.
  - destruct a; try discriminate; destruct b; try discriminate.
    + auto.
    + intros H. apply pystr_eqb_iff in H. subst. right. right. eauto.
Qed.

Lemma key_eqb_sym a b : key_eqb a b = true -> key_eqb b a = true.
Proof.
  intros H. destruct (key_eqb_cases _ _ H)
    as [(x & y & Ea & Eb & E)|[[-> ->]|(s & -> & ->)]].
  - unfold key_eqb. rewrite Ea, Eb. apply Qeq_bool_iff. now symmetry.
  - reflexivity.
  - exact H.
Qed.

Lemma key_eqb_trans a b c :
  key_eqb a b = true -> key_eqb b c = true -> key_eqb a c = true.
Proof.
  intros H1 H2.
  destruct (key_eqb_cases _ _ H1)
    as [(x & y & Ea & Eb & E)|[[-> ->]|(s & -> & ->)]]; [|exact H2|exact H2].
  destruct (key_eqb_cases _ _ H2)
    as [(y' & z & Eb' & Ec & E')|[[-> ->]|(s & -> & ->)]]; try discriminate.
  unfold key_eqb. rewrite Ea, Ec. apply Qeq_bool_iff.
  rewrite Eb in Eb'. inversion Eb'; subst. now rewrite E.
Qed.

Lemma key_eqb_false_sym a b : key_eqb a b = false -> key_eqb b a = false.
Proof.
  intros H. destruct (key_eqb b a) eqn:E; [|reflexivity].
  apply key_eqb_sym in E. congruence.
Qed.

(** Looking up a key after a write to an equal key gives the value
    written. *)
Lemma find_key_store_same {V} k0 k (v : V) (d : pydict V) :
  key_eqb k0 k = true -> find_key k0 (store k v d) = Some v.
Proof.
  intros H. induction d as [|[k' v'] d IH]; cbn [store find_key].
  - now rewrite H.
  - destruct (key_eqb k k') eqn:E; cbn [find_key].
    + now rewrite (key_eqb_trans _ _ _ H E).
    + destruct (key_eqb k0 k') eqn:E0; [|exact IH].
      rewrite (key_eqb_trans _ _ _ (key_eqb_sym _ _ H) E0) in E. discriminate.
Qed.

(** A write leaves the other keys as they were. *)
Lemma find_key_store_other {V} k0 k (v : V) (d : pydict V) :
  key_eqb k0 k = false -> find_key k0 (store k v d) = find_key k0 d.
Proof.
  intros H. induction d as [|[k' v'] d IH]; cbn [store find_key].
  - now rewrite H.
  - destruct (key_eqb k k') eqn:E; cbn [find_key].
    + destruct (key_eqb k0 k') eqn:E0; [|reflexivity].
      rewrite (key_eqb_trans _ _ _ E0 (key_eqb_sym _ _ E)) in H. discriminate.
    + now rewrite IH.
Qed.

Lemma store_distinct {V} k (v : V) (d : pydict V) :
  CollectorSpec.distinct_keys d -> CollectorSpec.distinct_keys (store k v d).
Proof.
  induction d as [|[k' v'] d IH]; cbn [store CollectorSpec.distinct_keys].
  - auto.
  - intros [Hk Hd]. destruct (key_eqb k k') eqn:E;
      cbn [CollectorSpec.distinct_keys].
    + auto.
    + split; [|auto]. rewrite find_key_store_other; [exact Hk|].
      now apply key_eqb_false_sym.
Qed.

Lemma store_values {V} (P : V -> Prop) k (v : V) (d : pydict V) :
  Forall (fun e => P (snd e)) d -> P v ->
  Forall (fun e => P (snd e)) (store k v d).
Proof.
  intros Hd Hv. induction d as [|[k' v'] d IH]; cbn [store].
  - auto.
  - inversion Hd; subst. destruct (key_eqb k k'); auto.
Qed.

Lemma store_keys_hashable {V} k (v : V) (d : pydict V) :
  Forall (fun e => hashable (fst e) = true) d -> hashable k = true ->
  Forall (fun e => hashable (fst e) = true) (store k v d).
Proof.
  intros Hd Hk. induction d as [|[k' v'] d IH]; cbn [store].
  - auto.
  - inversion Hd; subst. destruct (key_eqb k k'); auto.
Qed.

Lemma store_length {V} k (v : V) (d : pydict V) :
  List.length (store k v d) <= S (List.length d).
Proof.
  induction d as [|[k' v'] d IH]; cbn [store List.length]; [lia|].
  destruct (key_eqb k k'); cbn [List.length]; lia.
Qed.

End DictFacts.

(* ================================================================== *)
(** ** What the Collector's mapping holds *)
(* ================================================================== *)

Module CollectorInvariants.

Import Re ZipSpec Collector CollectorSpec.

Lemma find_key_app {V} k (d1 d2 : pydict V) :
  find_key k (d1 ++ d2) =
  match find_key k d1 with
  | Some v => Some v
  | None => find_key k d2
  end.
Proof.
  induction d1 as [|[k' v'] d1 IH]; cbn [app find_key]; [reflexivity|].
  now destruct (key_eqb k k').
Qed.

(** A sequence of writes: the last write to a key decides its value. *)
Lemma find_key_writes k (ws : list (pyval * pyval)) : forall d,
  find_key k (fold_left (fun d w => store (fst w) (snd w) d) ws d) =
  match last_write k ws with
  | Some v => Some v
  | None => find_key k d
  end.
Proof.
  unfold last_write.
  induction ws as [|[k' v'] ws IH]; intros d; cbn [fold_left rev fst snd].
  - reflexivity.
  - rewrite IH, find_key_app. destruct (find_key k (rev ws)); [reflexivity|].
    cbn [find_key]. destruct (key_eqb k k') eqn:E.
    + now apply DictFacts.find_key_store_same.
    + now apply DictFacts.find_key_store_other.
Qed.

Section CollectorInvariants.
Context {U : unicode_db}.
Variable fromisoformat : pystr -> option datetime.
Variable today : nat -> Z.
Variable inat_get : Z -> Z -> result pyval.

#[local] Abbreviation collect_one := (collect_one fromisoformat).
#[local] Abbreviation collect_loop := (collect_loop fromisoformat today).
#[local] Abbreviation contribution := (contribution fromisoformat).
#[local] Abbreviation writes := (writes fromisoformat today).
#[local] Abbreviation get_inaturalist_observations :=
  (get_inaturalist_observations fromisoformat today inat_get).

(** The loop body is the record's contribution followed by the write. *)
Lemma collect_one_contribution now observations observation :
  collect_one now observations observation =
  (c <- contribution now observation ;;
   match c with
   | Some (k, data) => setitem observations k data
   | None => Ok observations
   end).
Proof.
  unfold Collector.collect_one, CollectorSpec.contribution.
  destruct (getitem observation (str "id")) as [k|]; [|reflexivity].
  cbn [bind].
  destruct (getitem observation (str "time_observed_at")) as [t|]; [|reflexivity].
  cbn [bind].
  destruct (old_enough fromisoformat now t) as [[|]|]; try reflexivity.
  cbn [bind].
  destruct (dict_get observation (str "place_guess") (PStr [])) as [place|];
    [|reflexivity].
  cbn [bind].
  destruct (re_search zip_pattern place) as [[z|]|]; try reflexivity.
  cbn [bind].
  destruct (observation_data observation z); reflexivity.
Qed.

(** A text that the search returns is a postal code of one of the three
    forms. *)
Lemma re_search_zip_text place z :
  re_search zip_pattern place = Ok (Some z) -> zip_text z.
Proof.
  destruct place as [| | |s| |]; cbn [re_search]; try discriminate.
  unfold search. pose proof (ReFacts.search_from_spec zip_pattern s (List.length s) 0) as H.
  destruct (search_from zip_pattern s 0 (List.length s)) as [[i e]|];
    cbn [option_map]; [|discriminate].
  intros E. inversion E; subst z. destruct H as (_ & M & _).
  rewrite ReFacts.rmatch_zip_at in M.
  destruct (ReFacts.zip_at_sound _ _ _ M) as [(pre & post & _ & _ & Hz & _) _].
  exact Hz.
Qed.

Lemma old_enough_text now t :
  old_enough fromisoformat now t = Ok true -> exists s, t = PStr s /\ s <> [].
Proof.
  unfold old_enough. destruct (truthy t) eqn:T; [|discriminate].
  unfold datetime_fromisoformat. destruct t as [| | |s| |]; try discriminate.
  intros _. exists s. split; [reflexivity|]. now destruct s.
Qed.

(** What a record contributes is an observation of the shape that the
    dict literal gives it. *)
Lemma contribution_collected now observation k data :
  contribution now observation = Ok (Some (k, data)) -> collected data.
Proof.
  unfold CollectorSpec.contribution.
  destruct (getitem observation (str "id")) as [k'|]; [|discriminate].
  cbn [bind].
  destruct (getitem observation (str "time_observed_at")) as [t|] eqn:Et;
    [|discriminate].
  cbn [bind].
  destruct (old_enough fromisoformat now t) as [[|]|] eqn:Ep; try discriminate.
  cbn [bind].
  destruct (dict_get observation (str "place_guess") (PStr [])) as [place|];
    [|discriminate].
  cbn [bind].
  destruct (re_search zip_pattern place) as [[z|]|] eqn:Ez; try discriminate.
  cbn [bind]. unfold observation_data. rewrite Et. cbn [bind].
  destruct (getitem observation (str "species_guess")) as [sp|]; [|discriminate].
  destruct (getitem observation (str "location")) as [loc|]; [|discriminate].
  destruct (getitem observation (str "observation_photos")) as [photos|];
    [|discriminate].
  cbn [bind]. destruct (getitem0 photos) as [first|]; [|discriminate].
  cbn [bind]. destruct (getitem first (str "photo")) as [photo|]; [|discriminate].
  cbn [bind]. destruct (getitem photo (str "url")) as [url|]; [|discriminate].
  cbn [bind]. intros H. inversion H; subst.
  destruct (old_enough_text _ _ Ep) as (s & -> & Hs).
  exists s, sp, z, loc, url. split; [reflexivity|]. split; [exact Hs|].
  exact (re_search_zip_text _ _ Ez).
Qed.

Lemma collect_one_kept now observations observation observations' :
  kept observations ->
  collect_one now observations observation = Ok observations' ->
  kept observations' /\
  List.length observations' <= S (List.length observations).
Proof.
  intros (Hh & Hc & Hd). rewrite collect_one_contribution.
  destruct (contribution now observation) as [[[k data]|]|] eqn:Ec;
    cbn [bind]; try discriminate.
  - unfold setitem. destruct (hashable k) eqn:Hk; [|discriminate].
    intros H. inversion H; subst. split; [|apply DictFacts.store_length].
    split; [now apply DictFacts.store_keys_hashable|].
    split; [|now apply DictFacts.store_distinct].
    apply DictFacts.store_values; [exact Hc|].
    exact (contribution_collected _ _ _ _ Ec).
  - intros H. inversion H; subst. split; [repeat split; assumption|lia].
Qed.

Lemma collect_loop_kept records : forall i observations,
  kept observations ->
  kept (fst (collect_loop i observations records)) /\
  List.length (fst (collect_loop i observations records))
  <= List.length observations + List.length records.
Proof.
  induction records as [|r records IH]; intros i obs Hk;
    cbn [Collector.collect_loop List.length].
  - cbn [fst]. split; [exact Hk|lia].
  - destruct (collect_one (today i) obs r) as [obs1|e] eqn:E.
    + destruct (collect_one_kept _ _ _ _ Hk E) as [Hk1 Hl1].
      destruct (IH (S i) obs1 Hk1) as [Hk2 Hl2]. split; [exact Hk2|lia].
    + cbn [fst]. split; [exact Hk|lia].
Qed.

(** When the loop ends without an exception, the mapping is the result of
    the writes of the passing records, in order. *)
Lemma collect_loop_writes records : forall i observations observations',
  collect_loop i observations records = (observations', None) ->
  observations' =
  fold_left (fun d w => store (fst w) (snd w) d) (writes i records) observations.
Proof.
  induction records as [|r records IH]; intros i obs obs';
    cbn [Collector.collect_loop CollectorSpec.writes].
  - intros H. now inversion H.
  - rewrite collect_one_contribution.
    destruct (contribution (today i) r) as [[[k data]|]|] eqn:Ec; cbn [bind].
    + unfold setitem. destruct (hashable k); [|discriminate].
      intros H. apply IH in H. exact H.
    + apply IH.
    + discriminate.
Qed.

(** The mapping that the [try] block leaves, with or without an
    exception, keeps the invariant. *)
Lemma collect_try_kept taxon_id per_page :
  kept (fst (collect_try fromisoformat today inat_get taxon_id per_page)).
Proof.
  assert (K0 : kept []) by (repeat split; constructor).
  unfold collect_try.
  destruct (inat_get taxon_id per_page) as [body|]; [|exact K0].
  destruct (getitem body (str "results")) as [rs|]; [|exact K0].
  destruct (iterate rs) as [records|]; [|exact K0].
  exact (proj1 (collect_loop_kept records 0 [] K0)).
Qed.

Lemma returned_mapping_kept taxon_id per_page log observations :
  get_inaturalist_observations taxon_id per_page = (log, Ok observations) ->
  kept observations.
Proof.
  unfold Collector.get_inaturalist_observations.
  pose proof (collect_try_kept taxon_id per_page) as Hk.
  destruct (collect_try fromisoformat today inat_get taxon_id per_page)
    as [obs [e|]]; cbn [fst] in Hk.
  - destruct e; try discriminate. intros H. now inversion H; subst.
  - intros H. now inversion H; subst.
Qed.

(** X5. Every observation of the mapping that the Collector returns has
    the five entries of the dict literal, with a timestamp that is a
    non-empty text and a postal code of five digits or of the ZIP+4 form;
    the ids of the mapping are hashable and pairwise different; and the
    mapping holds at most as many observations as the response has
    records. *)
Theorem collector_output_invariant taxon_id per_page log observations :
  get_inaturalist_observations taxon_id per_page = (log, Ok observations) ->
  Forall (fun e => hashable (fst e) = true /\ collected (snd e)) observations /\
  distinct_keys observations /\
  (forall body records,
     inat_get taxon_id per_page = Ok body ->
     getitem body (str "results") = Ok (PList records) ->
     List.length observations <= List.length records).
Proof.
  intros Hrun.
  destruct (returned_mapping_kept _ _ _ _ Hrun) as (Hh & Hc & Hd).
  split; [|split; [exact Hd|]].
  - apply Forall_forall. intros e He. rewrite Forall_forall in Hh, Hc. auto.
  - intros body records Hb Hr. revert Hrun.
    unfold Collector.get_inaturalist_observations, collect_try.
    rewrite Hb, Hr. cbn [iterate].
    assert (K0 : kept []) by (repeat split; constructor).
    pose proof (proj2 (collect_loop_kept records 0 [] K0)) as Hl.
    destruct (collect_loop 0 [] records) as [obs [e|]]; cbn [fst] in Hl.
    + destruct e; try discriminate. intros H. now inversion H; subst.
    + intros H. now inversion H; subst.
Qed.

(** X6. Last seen wins: when the response's records are handled without
    an exception, the mapping holds for every id the observation of the
    last record with that id that passed the filters, and nothing for an
    id that no passing record has. *)
Theorem last_seen_wins taxon_id per_page body records log observations :
  inat_get taxon_id per_page = Ok body ->
  getitem body (str "results") = Ok (PList records) ->
  get_inaturalist_observations taxon_id per_page = (log, Ok observations) ->
  forall k, find_key k observations = last_write k (writes 0 records).
Proof.
  intros Hb Hr. unfold Collector.get_inaturalist_observations, collect_try.
  rewrite Hb, Hr. cbn [iterate].
  destruct (collect_loop 0 [] records) as [obs [e|]] eqn:El.
  - destruct e; try discriminate.
    now apply MainFacts.plain_collect_loop in El.
  - intros H k. inversion H; subst.
    rewrite (collect_loop_writes _ _ _ _ El), find_key_writes.
    now destruct (last_write k (writes 0 records)).
Qed.

End CollectorInvariants.

End CollectorInvariants.

(* ================================================================== *)
(** ** The shape of the Enricher's result *)
(* ================================================================== *)

Module EnricherShape.

Import Enricher WeatherSpec.

(** A subscript by a text raises [KeyError] or [TypeError], nothing else. *)
Lemma getitem_error o k e :
  getitem o k = Raise e -> e = KeyError \/ e = TypeError.
Proof.
  destruct o as [| | | | |d]; cbn [getitem];
    try (intros H; inversion H; now auto).
  destruct (lookup k d); intros H; inversion H; auto.
Qed.

(** The loop body keeps the two keys of the [weather] dict. *)
Lemma weather_step_shape a r record weather' :
  weather_step [(str "avg_temp", a); (str "rain", r)] record = Ok weather' ->
  exists a' r', weather' = [(str "avg_temp", a'); (str "rain", r')].
Proof.
  unfold weather_step.
  destruct (getitem record (str "datatype")) as [d|]; [|discriminate].
  cbn [bind]. destruct (eq_str d (str "TAVG")).
  - destruct (getitem record (str "value")) as [v|]; [|discriminate].
    cbn [bind]. intros H. inversion H. eauto.
  - destruct (eq_str d (str "PRCP")).
    + destruct (getitem record (str "value")) as [v|]; [|discriminate].
      cbn [bind]. intros H. inversion H. eauto.
    + intros H. inversion H. eauto.
Qed.

Lemma weather_loop_shape records : forall a r weather',
  weather_loop [(str "avg_temp", a); (str "rain", r)] records = Ok weather' ->
  exists a' r', weather' = [(str "avg_temp", a'); (str "rain", r')].
Proof.
  induction records as [|x records IH]; intros a r w'; cbn [weather_loop].
  - intros H. inversion H. eauto.
  - destruct (weather_step [(str "avg_temp", a); (str "rain", r)] x)
      as [w1|] eqn:E; [|discriminate].
    cbn [bind]. destruct (weather_step_shape _ _ _ _ E) as (a1 & r1 & ->).
    apply IH.
Qed.

Lemma plain_weather_step weather record : plain (weather_step weather record).
Proof.
  unfold weather_step.
  apply MainFacts.plain_bind; [apply MainFacts.plain_getitem|intros d].
  destruct (eq_str d (str "TAVG")).
  - apply MainFacts.plain_bind; [apply MainFacts.plain_getitem|intros v].
    apply MainFacts.plain_ok.
  - apply MainFacts.plain_bind; [apply MainFacts.plain_getitem|intros d'].
    destruct (eq_str d' (str "PRCP")); [|apply MainFacts.plain_ok].
    apply MainFacts.plain_bind; [apply MainFacts.plain_getitem|intros v].
    apply MainFacts.plain_ok.
Qed.

Lemma plain_weather_loop records : forall weather,
  plain (weather_loop weather records).
Proof.
  induction records as [|x records IH]; intros w; cbn [weather_loop].
  - apply MainFacts.plain_ok.
  - apply MainFacts.plain_bind; [apply plain_weather_step|intros w'; apply IH].
Qed.

Lemma plain_iterate o : plain (iterate o).
Proof. intros msg. destruct o; discriminate. Qed.

(** An unreadable record makes the loop body raise, whatever the
    [weather] dict holds. *)
Lemma weather_step_unreadable weather record :
  readable record = false ->
  exists e, weather_step weather record = Raise e /\
            (e = KeyError \/ e = TypeError).
Proof.
  unfold readable, weather_step.
  destruct (getitem record (str "datatype")) as [d|e] eqn:Ed.
  - cbn [bind]. destruct (eq_str d (str "TAVG")); cbn [orb].
    + destruct (getitem record (str "value")) as [v|e] eqn:Ev; [discriminate|].
      intros _. exists e. split; [reflexivity|exact (getitem_error _ _ _ Ev)].
    + destruct (eq_str d (str "PRCP")); [|discriminate].
      destruct (getitem record (str "value")) as [v|e] eqn:Ev; [discriminate|].
      intros _. exists e. split; [reflexivity|exact (getitem_error _ _ _ Ev)].
  - intros _. exists e. split; [reflexivity|exact (getitem_error _ _ _ Ed)].
Qed.

Lemma weather_step_readable weather record :
  readable record = true -> exists weather', weather_step weather record = Ok weather'.
Proof.
  unfold readable, weather_step.
  destruct (getitem record (str "datatype")) as [d|]; [|discriminate].
  cbn [bind]. destruct (eq_str d (str "TAVG")); cbn [orb].
  - destruct (getitem record (str "value")); [cbn [bind]; eauto|discriminate].
  - destruct (eq_str d (str "PRCP")); [|eauto].
    destruct (getitem record (str "value")); [cbn [bind]; eauto|discriminate].
Qed.

Lemma weather_loop_unreadable records : forall weather,
  forallb readable records = false ->
  exists e, weather_loop weather records = Raise e /\
            (e = KeyError \/ e = TypeError).
Proof.
  induction records as [|x records IH]; intros w; cbn [forallb weather_loop].
  - discriminate.
  - destruct (readable x) eqn:Rx; cbn [andb].
    + intros H. destruct (weather_step_readable w x Rx) as (w' & ->).
      cbn [bind]. apply IH, H.
    + intros _. destruct (weather_step_unreadable w x Rx) as (e & -> & He).
      exists e. auto.
Qed.

Section EnricherShape.
Variable noaa_get : pyval -> pyval -> result pyval.

#[local] Abbreviation get_weather_for_observation :=
  (get_weather_for_observation noaa_get).

(** X7. Whatever the climate service sends, a value that the Enricher
    returns is either [None], and then the request itself failed and one
    error line was printed, or a dict with exactly the two keys
    [avg_temp] and [rain], and then nothing was printed. The Enricher
    returns no other value and no sample with a key missing. *)
Theorem enricher_result_shape zip_code date log w :
  get_weather_for_observation zip_code date = (log, Ok w) ->
  (exists msg,
     noaa_get zip_code date = Raise (RequestException msg) /\
     w = PNone /\ log = [str "Error fetching NOAA data: " ++ msg]) \/
  (exists body a r,
     noaa_get zip_code date = Ok body /\
     w = PDict [(str "avg_temp", a); (str "rain", r)] /\ log = []).
Proof.
  unfold Enricher.get_weather_for_observation, weather_try.
  destruct (noaa_get zip_code date) as [body|e] eqn:En; cbn [bind].
  - destruct (getitem body (str "results")) as [results|e] eqn:Er; cbn [bind].
    + destruct (iterate results) as [records|e] eqn:Ei; cbn [bind].
      * destruct (weather_loop [(str "avg_temp", PNone); (str "rain", PNone)] records)
          as [weather|e] eqn:El; cbn [bind].
        -- intros H. inversion H; subst. right.
           destruct (weather_loop_shape _ _ _ _ El) as (a & r & ->).
           exists body, a, r. auto.
        -- destruct e; try discriminate.
           now apply plain_weather_loop in El.
      * destruct e; try discriminate. now apply plain_iterate in Ei.
    + destruct e; try discriminate. now apply MainFacts.plain_getitem in Er.
  - destruct e; try discriminate. intros H. inversion H; subst. left.
    exists msg. auto.
Qed.

(** X8. One record that the loop cannot read (no [datatype], or a [TAVG]
    or [PRCP] record without [value]) makes the whole lookup raise
    [KeyError] or [TypeError], wherever the record stands and whatever the
    other records hold: the exception is not caught, and nothing is
    printed. *)
Theorem unreadable_record_raises zip_code date body records :
  noaa_get zip_code date = Ok body ->
  getitem body (str "results") = Ok (PList records) ->
  forallb readable records = false ->
  exists e,
    get_weather_for_observation zip_code date = ([], Raise e) /\
    (e = KeyError \/ e = TypeError).
Proof.
  intros Hn Hr Hu.
  unfold Enricher.get_weather_for_observation, weather_try.
  rewrite Hn. cbn [bind]. rewrite Hr. cbn [bind iterate].
  destruct (weather_loop_unreadable records
              [(str "avg_temp", PNone); (str "rain", PNone)] Hu)
    as (e & -> & He).
  cbn [bind]. exists e. split; [|exact He].
  destruct He as [-> | ->]; reflexivity.
Qed.

End EnricherShape.

End EnricherShape.

(* ================================================================== *)
(** ** The Aggregator, species by species *)
(* ================================================================== *)

Module AggregatorSummary.

Import Aggregator AggregateSpec Summary.

(** *** First occurrences *)





(** *** Adding a sample *)





(** *** From the loop to the groups *)








(** *** From the groups to the aggregates *)










End AggregatorSummary.

(* ================================================================== *)
(** ** The exceptions that leave the Aggregator *)
(* ================================================================== *)

Module AggregatorErrors.

Import Aggregator.










End AggregatorErrors.

(* ================================================================== *)
(** ** The enrichment loop of [main] *)
(* ================================================================== *)

Module PipelineFacts.

Import Collector Main PipelineSpec.



(** The value of a lookup at the Enricher, without its printed lines. *)
Lemma weather_value_shape noaa_get zip_code date w :
  snd (Enricher.get_weather_for_observation noaa_get zip_code date) = Ok w ->
  w = PNone \/ exists a r, w = PDict [(str "avg_temp", a); (str "rain", r)].
Proof.
  unfold Enricher.get_weather_for_observation, Enricher.weather_try.
  destruct (noaa_get zip_code date) as [body|e]; cbn [bind].
  - destruct (getitem body (str "results")) as [results|e]; cbn [bind].
    + destruct (iterate results) as [records|e]; cbn [bind].
      * destruct (Enricher.weather_loop
                    [(str "avg_temp", PNone); (str "rain", PNone)] records)
          as [weather|e] eqn:El; cbn [bind snd].
        -- intros H. inversion H; subst. right.
           destruct (EnricherShape.weather_loop_shape _ _ _ _ El) as (a & r & ->).
           eauto.
        -- destruct e; cbn [snd]; intros H; inversion H; auto.
      * destruct e; cbn [snd]; intros H; inversion H; auto.
    + destruct e; cbn [snd]; intros H; inversion H; auto.
  - destruct e; cbn [snd]; intros H; inversion H; auto.
Qed.

Section PipelineFacts.
Context {U : unicode_db}.
Variable fromisoformat : pystr -> option datetime.
Variable today : nat -> Z.
Variable inat_get : Z -> Z -> result pyval.
Variable noaa_get : pyval -> pyval -> result pyval.
Variable plot_observations_on_map : pydict pyval -> result unit.

#[local] Abbreviation enrich := (enrich noaa_get).
#[local] Abbreviation get_weather :=
  (Enricher.get_weather_for_observation noaa_get).

(** One turn of the loop, spelled out. *)
Lemma enrich_cons k observation rest :
  enrich ((k, observation) :: rest) =
  match getitem observation (str "zip_code") with
  | Raise e => ([], Raise e)
  | Ok zip_code =>
      match getitem observation (str "datetime") with
      | Raise e => ([], Raise e)
      | Ok dt =>
          match split_T_first dt with
          | Raise e => ([], Raise e)
          | Ok date =>
              match snd (get_weather zip_code date) with
              | Raise e =>
                  (NoaaRequest zip_code date
                     :: map Print (fst (get_weather zip_code date)), Raise e)
              | Ok w =>
                  match set_weather observation w with
                  | Raise e =>
                      (NoaaRequest zip_code date
                         :: map Print (fst (get_weather zip_code date)),
                       Raise e)
                  | Ok observation' =>
                      (NoaaRequest zip_code date
                         :: map Print (fst (get_weather zip_code date))
                         ++ fst (enrich rest),
                       match snd (enrich rest) with
                       | Ok rest' => Ok ((k, observation') :: rest')
                       | Raise e => Raise e
                       end)
                  end
              end
          end
      end
  end.
Proof.
  cbn [Main.enrich]. unfold lift, emit, printed, io_bind.
  destruct (getitem observation (str "zip_code")) as [zip_code|]; [|reflexivity].
  destruct (getitem observation (str "datetime")) as [dt|]; [|reflexivity].
  destruct (split_T_first dt) as [date|]; [|reflexivity].
  cbn [app]. destruct (snd (get_weather zip_code date)) as [w|];
    [|reflexivity].
  destruct (set_weather observation w) as [observation'|];
    [|cbv beta iota; now rewrite app_nil_r].
  destruct (enrich rest) as [t [rest'|e]]; cbv beta iota; cbn [fst snd];
    now rewrite ?app_nil_r.
Qed.


(** The enrichment of an observation that the Collector built. *)
Lemma collected_fields v :
  CollectorSpec.collected v ->
  exists t species z coordinates url,
    v = PDict [ (str "datetime", PStr t);
                (str "species", species);
                (str "zip_code", PStr z);
                (str "coordinates", coordinates);
                (str "photo_url", url) ].
Proof.
  intros (t & sp & z & c & u & -> & _). eauto 10.
Qed.

Lemma set_weather_collected v w v' :
  CollectorSpec.collected v -> set_weather v w = Ok v' ->
  (exists label, getitem v' (str "species") = Ok label) /\
  dict_get v' (str "weather") PNone = Ok w.
Proof.
  intros Hc. destruct (collected_fields v Hc) as (t & sp & z & c & u & ->).
  cbn. intros H. inversion H; subst. split; [exists sp|]; reflexivity.
Qed.

(** The loop on observations that the Collector built leaves
    observations of the enriched shape. *)
Lemma enrich_shape observations : forall trace observations',
  Forall (fun e => CollectorSpec.collected (snd e)) observations ->
  enrich observations = (trace, Ok observations') ->
  Forall (fun e => enriched_shape (snd e)) observations'.
Proof.
  induction observations as [|[k o] rest IH]; intros trace obs' Hc.
  - cbn. intros H. inversion H; subst. constructor.
  - inversion Hc as [|? ? Ho Hrest]; subst. cbn [snd] in Ho.
    rewrite enrich_cons.
    destruct (getitem o (str "zip_code")) as [z|]; [|discriminate].
    destruct (getitem o (str "datetime")) as [dt|]; [|discriminate].
    destruct (split_T_first dt) as [date|]; [|discriminate].
    destruct (snd (get_weather z date)) as [w|] eqn:Ew; [|discriminate].
    destruct (set_weather o w) as [o'|] eqn:Es; [|discriminate].
    destruct (enrich rest) as [t [rest'|e]] eqn:Er; cbn [fst snd];
      [|discriminate].
    intros H. inversion H; subst. constructor; [|exact (IH _ _ Hrest eq_refl)].
    cbn [snd]. destruct (set_weather_collected o w o' Ho Es) as [Hl Hd].
    split; [exact Hl|]. rewrite Hd.
    destruct (weather_value_shape _ _ _ _ Ew) as [->|(a & r & ->)]; eauto.
Qed.

(** The loop completes when every request is answered. *)
Lemma enrich_total observations :
  Forall (fun e => CollectorSpec.collected (snd e)) observations ->
  (forall zip_code date, answers noaa_get zip_code date = true) ->
  exists trace observations', enrich observations = (trace, Ok observations').
Proof.
  intros Hc Ha. induction Hc as [|[k o] rest Ho _ IH].
  - exists [], []. reflexivity.
  - destruct IH as (t & rest' & Er).
    destruct (collected_fields o Ho) as (ts & sp & z & c & u & Eo).
    rewrite enrich_cons.
    assert (Ez : getitem o (str "zip_code") = Ok (PStr z)) by (subst o; reflexivity).
    assert (Ed : getitem o (str "datetime") = Ok (PStr ts)) by (subst o; reflexivity).
    rewrite Ez, Ed. cbn [split_T_first].
    set (date := PStr (before 84 ts)).
    assert (Hw : exists w, snd (get_weather (PStr z) date) = Ok w).
    { specialize (Ha (PStr z) date). unfold answers in Ha.
      unfold Enricher.get_weather_for_observation, Enricher.weather_try.
      destruct (noaa_get (PStr z) date) as [body|e].
      - cbn [bind].
        destruct (getitem body (str "results")) as [[| | | |records|]|];
          try discriminate.
        cbn [bind iterate].
        rewrite (EnricherFacts.weather_loop_readable _ _ _ Ha). cbn [bind snd].
        eauto.
      - destruct e; try discriminate. cbn [bind snd]. eauto. }
    destruct Hw as (w & Ew). rewrite Ew.
    assert (Es : exists o', set_weather o w = Ok o') by (subst o; cbn; eauto).
    destruct Es as (o' & Es). rewrite Es, Er. cbn [fst snd]. eauto.
Qed.

(** X12. A failed request never stops the enrichment: when the mapping
    comes from the Collector and the climate service answers every
    request with a failure or with readable records, the loop of [main]
    completes, and every observation then has a species and a weather
    that is [None] or a sample with the two keys. *)
Theorem enrichment_completes observations :
  Forall (fun e => CollectorSpec.collected (snd e)) observations ->
  (forall zip_code date, answers noaa_get zip_code date = true) ->
  exists trace observations',
    enrich observations = (trace, Ok observations') /\
    Forall (fun e => enriched_shape (snd e)) observations'.
Proof.
  intros Hc Ha. destruct (enrich_total observations Hc Ha) as (t & obs' & E).
  exists t, obs'. split; [exact E|]. exact (enrich_shape _ _ _ Hc E).
Qed.





#[local] Abbreviation get_inaturalist_observations :=
  (get_inaturalist_observations fromisoformat today inat_get).
#[local] Abbreviation main :=
  (main fromisoformat today inat_get noaa_get plot_observations_on_map).


End PipelineFacts.

End PipelineFacts.

(* ================================================================== *)
(** ** The corners of the map contain every observation *)
(* ================================================================== *)

Module MapBoundsFacts.
Import Py MapBounds.








(** [split] returns at least one part, and a second one exactly when
    the separator occurs. *)
Lemma split_on_first sep s : exists p ps, split_on sep s = p :: ps.
Proof.
  induction s as [|c rest (p & ps & E)]; cbn [split_on]; [eauto|].
  destruct (c =? sep)%N; [eauto|]. rewrite E. eauto.
Qed.

Lemma split_on_second sep s :
  nth_error (split_on sep s) 1 = None <-> ~ In sep s.
Proof.
  induction s as [|c rest IH]; cbn [split_on].
  - split; [intros _ []|reflexivity].
  - destruct (c =? sep)%N eqn:Ec.
    + apply N.eqb_eq in Ec. subst c.
      destruct (split_on_first sep rest) as (p & ps & E). rewrite E. cbn.
      split; [discriminate|]. intros H. exfalso. apply H. now left.
    + apply N.eqb_neq in Ec.
      destruct (split_on_first sep rest) as (p & ps & E). rewrite E in *.
      cbn [nth_error] in *. rewrite IH. cbn [In]. tauto.
Qed.

Section MapBoundsFacts.
Variable float : pystr -> option Q.

#[local] Abbreviation coordinate := (coordinate float).
#[local] Abbreviation coordinates := (coordinates float).
#[local] Abbreviation map_corners := (map_corners float).
#[local] Abbreviation located := (located float).

Lemma coordinates_ok i values : forall qs,
  coordinates i values = Ok qs <->
  Forall2 (fun obs q => coordinate i obs = Ok q) values qs.
Proof.
  induction values as [|obs rest IH]; intros qs; cbn [MapBounds.coordinates].
  - split.
    + intros H. inversion H; subst. constructor.
    + intros H. inversion H; subst. reflexivity.
  - split.
    + destruct (coordinate i obs) as [q|] eqn:Eq; [|discriminate]. cbn [bind].
      destruct (coordinates i rest) as [qs'|] eqn:Er; [|discriminate].
      cbn [bind]. intros H. inversion H; subst.
      constructor; [exact Eq|]. now apply IH.
    + intros H. inversion H as [|? q ? qs' Hq Hr]; subst.
      rewrite Hq. cbn [bind]. apply IH in Hr. rewrite Hr. reflexivity.
Qed.

(** The comprehension stops at the first observation that cannot be
    read, with its exception. *)
Lemma coordinates_raise i values e :
  coordinates i values = Raise e ->
  exists obs, In obs values /\ coordinate i obs = Raise e.
Proof.
  induction values as [|obs rest IH]; cbn [MapBounds.coordinates]; [discriminate|].
  destruct (coordinate i obs) as [q|e'] eqn:Eq; cbn [bind].
  - destruct (coordinates i rest) as [qs|e''] eqn:Er; cbn [bind]; [discriminate|].
    intros H. inversion H; subst.
    destruct (IH eq_refl) as (o & Ho & Eo). exists o. split; [now right|exact Eo].
  - intros H. inversion H; subst. exists obs. split; [now left|exact Eq].
Qed.

Lemma forall2_pointwise {A} (P Q : A -> Prop) xs :
  Forall P xs -> Forall Q xs -> Forall (fun x => P x /\ Q x) xs.
Proof.
  induction 1; intros H'; inversion H'; subst; constructor; auto.
Qed.

(** What the comprehension read for each observation, with a bound that
    all the numbers satisfy. *)
Lemma read_bounded i values qs (P : Q -> Prop) :
  Forall2 (fun obs q => coordinate i obs = Ok q) values qs ->
  Forall P qs ->
  Forall (fun obs => exists q, coordinate i obs = Ok q /\ P q) values.
Proof.
  induction 1 as [|obs q values qs Hq _ IH]; intros HP; [constructor|].
  inversion HP; subst. constructor; eauto.
Qed.


(** X15. The corners are computed exactly when the mapping is not empty
    and every observation has coordinates that can be read: a text with
    a comma whose first two parts [float] accepts. *)
Theorem map_corners_returns observations :
  (exists c, map_corners observations = Ok c) <->
  observations <> [] /\
  Forall (fun e => exists lat lon, located (snd e) lat lon) observations.
Proof.
  split.
  - intros (c & Hc). revert Hc. unfold MapBounds.map_corners.
    destruct (coordinates 0 (map snd observations)) as [lats|] eqn:Elat;
      [|discriminate].
    destruct (coordinates 1 (map snd observations)) as [lons|] eqn:Elon;
      [|discriminate].
    cbn [bind]. destruct (py_min lats) as [min_lat|] eqn:Emin; [|discriminate].
    intros _. apply coordinates_ok in Elat, Elon. split.
    + intros ->. inversion Elat; subst. discriminate.
    + pose proof (read_bounded 0 _ _ (fun _ => True) Elat) as Rlat.
      pose proof (read_bounded 1 _ _ (fun _ => True) Elon) as Rlon.
      rewrite Forall_map in Rlat, Rlon.
      assert (T : forall qs : list Q, Forall (fun _ => True) qs)
        by (intros qs; apply Forall_forall; auto).
      pose proof (forall2_pointwise _ _ _ (Rlat (T _)) (Rlon (T _))) as R.
      eapply Forall_impl; [|exact R]. cbv beta.
      intros e [(lat & El & _) (lon & Eo & _)]. exists lat, lon. now split.
  - intros [Hne Hall].
    assert (Hlat : exists lats, coordinates 0 (map snd observations) = Ok lats /\
                                List.length lats = List.length observations).
    { clear Hne. induction Hall as [|e rest (lat & lon & Hl & _) _ (lats & El & Hn)].
      - exists []. split; reflexivity.
      - exists (lat :: lats). cbn [map MapBounds.coordinates].
        change (MapBounds.coordinate float 0 (snd e)) with (coordinate 0 (snd e)).
        rewrite Hl. cbn [bind]. rewrite El. cbn [bind List.length].
        split; [reflexivity|now rewrite Hn]. }
    assert (Hlon : exists lons, coordinates 1 (map snd observations) = Ok lons /\
                                List.length lons = List.length observations).
    { clear Hne Hlat.
      induction Hall as [|e rest (lat & lon & _ & Hl) _ (lons & El & Hn)].
      - exists []. split; reflexivity.
      - exists (lon :: lons). cbn [map MapBounds.coordinates].
        change (MapBounds.coordinate float 1 (snd e)) with (coordinate 1 (snd e)).
        rewrite Hl. cbn [bind]. rewrite El. cbn [bind List.length].
        split; [reflexivity|now rewrite Hn]. }
    destruct Hlat as (lats & Elat & Nlat). destruct Hlon as (lons & Elon & Nlon).
    unfold MapBounds.map_corners. rewrite Elat, Elon. cbn [bind].
    destruct observations as [|e rest]; [contradiction|].
    destruct lats as [|lat lats]; [discriminate|].
    destruct lons as [|lon lons]; [discriminate|].
    cbn [py_min py_max bind]. eauto.
Qed.

(** Why an observation with a [coordinates] entry cannot be read. *)
Lemma coordinate_raise i obs c e :
  i <= 1 ->
  getitem obs (str "coordinates") = Ok c ->
  coordinate i obs = Raise e ->
  (e = AttributeError /\ forall s, c <> PStr s) \/
  (e = IndexError /\ exists s, c = PStr s /\ ~ In 44%N s) \/
  (e = ValueError /\
   exists s p, c = PStr s /\ In p (split_on 44 s) /\ float p = None).
Proof.
  intros Hi Hc. unfold MapBounds.coordinate. rewrite Hc. cbn [bind].
  destruct c as [|b|q|s|l|d]; cbn [split_comma bind];
    try (intros H; inversion H; subst; left; split; [reflexivity|];
         intros s; discriminate).
  unfold part. destruct (nth_error (split_on 44 s) i) as [p|] eqn:Ep;
    cbn [bind].
  - unfold py_float. destruct (float p) eqn:Ef; [discriminate|].
    intros H. inversion H; subst. right. right. split; [reflexivity|].
    exists s, p. split; [reflexivity|]. split; [|exact Ef].
    eapply nth_error_In; eauto.
  - intros H. inversion H; subst. right. left. split; [reflexivity|].
    exists s. split; [reflexivity|]. apply split_on_second.
    destruct i as [|[|i]]; [|exact Ep|lia].
    destruct (split_on_first 44 s) as (p & ps & E). rewrite E in Ep.
    discriminate.
Qed.

(** X16. The exceptions of the corner computation. On observations that
    have a [coordinates] entry, as the Collector writes them, lines
    95-107 raise [ValueError] on an empty mapping, and otherwise only
    for an observation whose coordinates cannot be read: [AttributeError]
    when they are not a text, [IndexError] when the text has no comma,
    [ValueError] when [float] rejects a part. No [KeyError] and no
    [TypeError] leaves them. *)
Theorem map_corners_exceptions observations e :
  Forall (fun e => exists c, getitem (snd e) (str "coordinates") = Ok c)
         observations ->
  map_corners observations = Raise e ->
  (observations = [] /\ e = ValueError) \/
  exists obs c,
    In obs (map snd observations) /\
    getitem obs (str "coordinates") = Ok c /\
    ((e = AttributeError /\ forall s, c <> PStr s) \/
     (e = IndexError /\ exists s, c = PStr s /\ ~ In 44%N s) \/
     (e = ValueError /\
      exists s p, c = PStr s /\ In p (split_on 44 s) /\ float p = None)).
Proof.
  intros Hc. unfold MapBounds.map_corners.
  assert (Hread : forall i, i <= 1 ->
            coordinates i (map snd observations) = Raise e ->
            exists obs c,
              In obs (map snd observations) /\
              getitem obs (str "coordinates") = Ok c /\
              ((e = AttributeError /\ forall s, c <> PStr s) \/
               (e = IndexError /\ exists s, c = PStr s /\ ~ In 44%N s) \/
               (e = ValueError /\
                exists s p, c = PStr s /\ In p (split_on 44 s) /\
                            float p = None))).
  { intros i Hi Hr. destruct (coordinates_raise _ _ _ Hr) as (obs & Hin & Eo).
    pose proof Hin as Hin'. apply in_map_iff in Hin' as (x & <- & Hx).
    rewrite Forall_forall in Hc. destruct (Hc x Hx) as (c & Ec).
    exists (snd x), c. split; [exact Hin|]. split; [exact Ec|].
    exact (coordinate_raise i _ _ _ Hi Ec Eo). }
  destruct (coordinates 0 (map snd observations)) as [lats|e0] eqn:Elat;
    cbn [bind].
  2:{ intros H. inversion H; subst. right. apply (Hread 0); [lia|exact Elat]. }
  destruct (coordinates 1 (map snd observations)) as [lons|e1] eqn:Elon;
    cbn [bind].
  2:{ intros H. inversion H; subst. right. apply (Hread 1); [lia|exact Elon]. }
  apply coordinates_ok in Elat, Elon.
  destruct observations as [|x rest].
  - inversion Elat; subst. cbn. intros H. inversion H. now left.
  - inversion Elat; subst. inversion Elon; subst. cbn [py_min py_max bind].
    discriminate.
Qed.

End MapBoundsFacts.

End MapBoundsFacts.

(* ================================================================== *)
(** ** The exceptions that leave the Collector *)
(* ================================================================== *)

Module CollectorErrors.
Import Py Collector.

Lemma getitem0_error o e :
  getitem0 o = Raise e -> e = KeyError \/ e = TypeError \/ e = IndexError.
Proof.
  destruct o as [| | |s|l|d]; cbn [getitem0];
    try (intros H; inversion H; now auto).
  - destruct s; intros H; inversion H; auto.
  - destruct l; intros H; inversion H; auto.
Qed.

Section CollectorErrors.
Context {U : unicode_db}.
Variable fromisoformat : pystr -> option datetime.
Variable today : nat -> Z.
Variable inat_get : Z -> Z -> result pyval.

Lemma old_enough_error now v e :
  old_enough fromisoformat now v = Raise e -> e = TypeError \/ e = ValueError.
Proof.
  unfold old_enough. destruct (truthy v); [|discriminate].
  unfold datetime_fromisoformat.
  destruct v as [| | |s| |]; cbn [bind];
    try (intros H; inversion H; now auto).
  destruct (fromisoformat s); cbn [bind]; [discriminate|].
  intros H; inversion H; auto.
Qed.

Lemma observation_data_error observation zip_code e :
  observation_data observation zip_code = Raise e ->
  e = KeyError \/ e = TypeError \/ e = IndexError.
Proof.
  unfold observation_data.
  repeat match goal with
  | |- bind (getitem ?o ?k) _ = Raise _ -> _ =>
      let E := fresh "E" in
      destruct (getitem o k) eqn:E; cbn [bind];
      [|intros H; inversion H; subst;
        destruct (EnricherShape.getitem_error _ _ _ E); now auto]
  | |- bind (getitem0 ?o) _ = Raise _ -> _ =>
      let E := fresh "E" in
      destruct (getitem0 o) eqn:E; cbn [bind];
      [|intros H; inversion H; subst; exact (getitem0_error _ _ E)]
  end.
  discriminate.
Qed.

Lemma collect_one_error now observations observation e :
  collect_one fromisoformat now observations observation = Raise e ->
  e = KeyError \/ e = TypeError \/ e = ValueError \/ e = IndexError.
Proof.
  unfold collect_one.
  destruct (getitem observation (str "id")) as [observation_id|] eqn:E1;
    cbn [bind];
    [|intros H; inversion H; subst;
      destruct (EnricherShape.getitem_error _ _ _ E1); now auto].
  destruct (getitem observation (str "time_observed_at")) as [dt|] eqn:E2;
    cbn [bind];
    [|intros H; inversion H; subst;
      destruct (EnricherShape.getitem_error _ _ _ E2); now auto].
  destruct (old_enough fromisoformat now dt) as [pass|] eqn:E3; cbn [bind];
    [|intros H; inversion H; subst;
      destruct (old_enough_error _ _ _ E3); now auto].
  destruct pass; [|discriminate].
  destruct observation as [| | | | |d]; try discriminate.
  cbn [dict_get].
  destruct (match lookup (str "place_guess") d with
            | Some v => Ok v
            | None => Ok (PStr [])
            end) as [place_guess|] eqn:E4;
    [|destruct (lookup (str "place_guess") d); discriminate].
  cbn [bind].
  destruct (Re.re_search Re.zip_pattern place_guess) as [[zip_code|]|] eqn:E5;
    cbn [bind].
  - destruct (observation_data (PDict d) zip_code) as [data|] eqn:E6;
      cbn [bind].
    + unfold setitem. destruct (hashable observation_id); [discriminate|].
      intros H; inversion H; auto.
    + intros H; inversion H; subst.
      destruct (observation_data_error _ _ _ E6) as [?|[?|?]]; auto.
  - discriminate.
  - destruct place_guess; cbn in E5; try discriminate;
      inversion E5; intros H; inversion H; auto.
Qed.

Lemma collect_loop_error records : forall i observations e,
  snd (collect_loop fromisoformat today i observations records) = Some e ->
  e = KeyError \/ e = TypeError \/ e = ValueError \/ e = IndexError.
Proof.
  induction records as [|observation rest IH]; intros i observations e;
    cbn [collect_loop].
  - discriminate.
  - destruct (collect_one fromisoformat (today i) observations observation)
      as [observations'|e'] eqn:E.
    + apply IH.
    + cbn [snd]. intros H. inversion H; subst.
      exact (collect_one_error _ _ _ _ E).
Qed.

(** X17. The exceptions that leave the Collector. When the request
    returns a body, an exception that leaves
    [get_inaturalist_observations] is a [KeyError], a [TypeError], a
    [ValueError] or an [IndexError] of the handling of the body, and
    nothing was printed: the [get] with a default never raises, because
    the subscripts before it have rejected every value that is not a
    dict. *)
Theorem collector_exceptions taxon_id per_page body log e :
  inat_get taxon_id per_page = Ok body ->
  get_inaturalist_observations fromisoformat today inat_get taxon_id per_page
  = (log, Raise e) ->
  log = [] /\
  (e = KeyError \/ e = TypeError \/ e = ValueError \/ e = IndexError).
Proof.
  intros Hb. unfold get_inaturalist_observations, collect_try. rewrite Hb.
  assert (Hout : forall (c : pydict pyval * option exn),
            (forall e', snd c = Some e' ->
               e' = KeyError \/ e' = TypeError \/ e' = ValueError \/
               e' = IndexError) ->
            match c with
            | (observations, None) => ([], Ok observations)
            | (observations, Some (RequestException msg)) =>
                ([str "Error fetching iNaturalist data: " ++ msg],
                 Ok observations)
            | (_, Some e0) => ([], Raise e0)
            end = (log, Raise e) ->
            log = [] /\
            (e = KeyError \/ e = TypeError \/ e = ValueError \/
             e = IndexError)).
  { intros [observations [e0|]] Hc; [|discriminate].
    specialize (Hc e0 eq_refl).
    destruct e0; try discriminate; intros H; inversion H; subst;
      (split; [reflexivity|exact Hc]). }
  apply Hout.
  destruct (getitem body (str "results")) as [rs|e1] eqn:E1.
  - destruct (iterate rs) as [records|e2] eqn:E2.
    + intros e'. apply collect_loop_error.
    + cbn [snd]. intros e' H. inversion H; subst.
      destruct rs; cbn in E2; try discriminate; inversion E2; auto.
  - cbn [snd]. intros e' H. inversion H; subst.
    destruct (EnricherShape.getitem_error _ _ _ E1); auto.
Qed.

End CollectorErrors.

End CollectorErrors.

(* ================================================================== *)
(** ** The properties on concrete data *)
(* ================================================================== *)

Module CoverageExamples.

Import Py Collector Enricher Aggregator Main.
Import CollectorSpec Summary PipelineSpec MapBounds Sample MoreSamples.

#[local] Existing Instance ascii_only.

(** X5 on the four records: two observations are kept, under the ids 1
    and 2. *)
Lemma collector_output_invariant_witness :
  Forall (fun e => hashable (fst e) = true /\ collected (snd e)) jay_and_robin /\
  distinct_keys jay_and_robin /\
  (forall body records,
     four_record_service 3017 10 = Ok body ->
     getitem body (str "results") = Ok (PList records) ->
     List.length jay_and_robin <= List.length records).
Proof.
  exact (@CollectorInvariants.collector_output_invariant ascii_only
           Sample.fromisoformat Sample.today four_record_service
           3017%Z 10%Z [] jay_and_robin eq_refl).
Defined.

(** X6 on the four records: the id 1 keeps the observation of the edited
    record. *)
Lemma last_seen_wins_witness :
  find_key (PNum 1) jay_and_robin
  = last_write (PNum 1) (writes Sample.fromisoformat Sample.today 0 four_records).
Proof.
  exact (@CollectorInvariants.last_seen_wins ascii_only
           Sample.fromisoformat Sample.today four_record_service
           3017%Z 10%Z (response four_records) four_records [] jay_and_robin
           eq_refl eq_refl eq_refl (PNum 1)).
Defined.

(** X7 on the five records. *)
Lemma enricher_result_shape_witness :
  (exists msg,
     five_record_service (PStr (str "78701")) (PStr (str "2024-05-01"))
     = Raise (RequestException msg) /\
     weather_sample (PNum 80) (PNum (1 # 5)) = PNone /\
     [] = [str "Error fetching NOAA data: " ++ msg]) \/
  (exists body a r,
     five_record_service (PStr (str "78701")) (PStr (str "2024-05-01"))
     = Ok body /\
     weather_sample (PNum 80) (PNum (1 # 5))
     = PDict [(str "avg_temp", a); (str "rain", r)] /\
     ([] : list pystr) = []).
Proof.
  exact (EnricherShape.enricher_result_shape five_record_service
           (PStr (str "78701")) (PStr (str "2024-05-01"))
           [] (weather_sample (PNum 80) (PNum (1 # 5))) eq_refl).
Defined.

(** X8 on a response whose second record has no [datatype]. *)
Lemma unreadable_record_raises_witness :
  exists e,
    get_weather_for_observation truncated_service
      (PStr (str "78701")) (PStr (str "2024-05-01")) = ([], Raise e) /\
    (e = KeyError \/ e = TypeError).
Proof.
  exact (EnricherShape.unreadable_record_raises truncated_service
           (PStr (str "78701")) (PStr (str "2024-05-01"))
           (climate_response [climate_record "TAVG" 70; truncated_record])
           [climate_record "TAVG" 70; truncated_record]
           eq_refl eq_refl eq_refl).
Defined.




(** The climate service of the examples answers every request. *)
Lemma climate_service_answers zip_code date :
  answers climate_service zip_code date = true.
Proof.
  unfold answers, climate_service.
  destruct (eq_str zip_code (str "78701")); reflexivity.
Defined.

(** The two observations come from the Collector. *)
Lemma jay_and_robin_collected :
  Forall (fun e => collected (snd e)) jay_and_robin.
Proof.
  exact (proj1 (proj2
           (@CollectorInvariants.returned_mapping_kept ascii_only
              Sample.fromisoformat Sample.today four_record_service
              3017%Z 10%Z [] jay_and_robin eq_refl))).
Defined.

(** X12 on the two observations of the four records. *)
Lemma enrichment_completes_witness :
  exists trace observations',
    enrich climate_service jay_and_robin = (trace, Ok observations') /\
    Forall (fun e => enriched_shape (snd e)) observations'.
Proof.
  exact (@PipelineFacts.enrichment_completes ascii_only climate_service
           jay_and_robin jay_and_robin_collected climate_service_answers).
Defined.



(** X16 on an observation without a location. *)
Lemma map_corners_exceptions_witness :
  (without_location = [] /\ AttributeError = ValueError) \/
  exists obs c,
    In obs (map snd without_location) /\
    getitem obs (str "coordinates") = Ok c /\
    ((AttributeError = AttributeError /\ forall s, c <> PStr s) \/
     (AttributeError = IndexError /\ exists s, c = PStr s /\ ~ In 44%N s) \/
     (AttributeError = ValueError /\
      exists s p, c = PStr s /\ In p (split_on 44 s) /\
                  MoreSamples.float p = None)).
Proof.
  apply (MapBoundsFacts.map_corners_exceptions MoreSamples.float
           without_location AttributeError).
  - constructor; [|constructor]. exists PNone. reflexivity.
  - reflexivity.
Defined.

(** X17 on a response whose second record has no photo. *)
Lemma collector_exceptions_witness :
  ([] : list pystr) = [] /\
  (IndexError = KeyError \/ IndexError = TypeError \/
   IndexError = ValueError \/ IndexError = IndexError).
Proof.
  exact (@CollectorErrors.collector_exceptions ascii_only
           Sample.fromisoformat Sample.today
           (fun _ _ => Ok (response [jay; jay_without_photo]))
           3017%Z 10%Z (response [jay; jay_without_photo]) [] IndexError
           eq_refl eq_refl).
Defined.

End CoverageExamples.
